(** * LDAP auth provider: a shallow embedding of
      [homeassistant/auth/providers/ldap.py]

    The provider validates a username and a password against a directory
    through the [ldap3] client library, and drives a one-step login flow.
    The Python code is embedded as functions in a writer-and-exception
    monad: every operation on the connection and every log record is an
    event of the trace, and an exception ends the computation with the
    trace produced so far.

    The [ldap3] library and the directory server behind it are the
    environment: a record [Ldap3] of answer functions, over which all
    statements quantify. *)

From stdpp Require Import base option list strings gmap.
From Stdlib Require Import Ascii String ZArith.

Open Scope string_scope.
Open Scope Z_scope.
Open Scope list_scope.

(** ** Exceptions *)

(** Exceptions of the [ldap3] library.  [LDAPBindError] is the only one
    the provider catches; the others stand for the library's remaining
    exception classes. *)
Inductive Ldap3Exception : Type :=
| LDAPBindError
| LDAPSocketOpenError
| LDAPStartTLSError
| LDAPCursorError
| LDAPResponseTimeoutError
| LDAPInvalidPortError
| LDAPPasswordIsMandatoryError.

(** Everything that can be raised while the provider runs:
    [InvalidAuthError] and [LdapError] are the two classes declared in
    the module, with the optional message passed to the constructor; the
    others are Python's own, [AttributeError] for a method an object does
    not have and [TypeError] for the iteration of [None]. *)
Inductive Exn : Type :=
| Ldap3Exn (e : Ldap3Exception)
| InvalidAuthError (msg : option string)
| LdapError
| KeyError (key : string)
| IndexError
| AttributeError
| TypeError.

#[global] Instance Ldap3Exception_eq_dec : EqDecision Ldap3Exception.
Proof. solve_decision. Defined.

#[global] Instance Exn_eq_dec : EqDecision Exn.
Proof. solve_decision. Defined.

(** ** Data model *)

(** [CONF_ENCRYPTION] takes one of three values. *)
Inductive Encryption : Type :=
| CONF_ENCRYPTION_LDAPS
| CONF_ENCRYPTION_NONE
| CONF_ENCRYPTION_STARTTLS.

#[global] Instance Encryption_eq_dec : EqDecision Encryption.
Proof. solve_decision. Defined.

(** [self.config] after [CONFIG_SCHEMA]: required keys are fields, the
    two optional keys without a default are options. *)
Record Config : Type := {
  conf_active_directory : bool;
  conf_allowed_group_dns : list string;
  conf_base_dn : string;
  conf_bind_as_user : bool;
  conf_bind_username : option string;
  conf_bind_password : option string;
  conf_validate_certificates : bool;
  conf_encryption : Encryption;
  conf_port : Z;
  conf_server : string;
  conf_timeout : Z;
  conf_username_attribute : string
}.

(** [ldap3.Tls()], whose [validate] the provider overwrites with
    [ssl.CERT_NONE] when certificate validation is switched off. *)
Inductive TlsValidate : Type := TLS_LIBRARY_DEFAULT | CERT_NONE.

Record Tls : Type := { tls_validate : TlsValidate }.

(** [ldap3.Server(host, port=, use_ssl=, tls=, connect_timeout=,
    get_info=ldap3.ALL)]. *)
Record Server : Type := {
  server_host : string;
  server_port : Z;
  server_use_ssl : bool;
  server_tls : Tls;
  server_connect_timeout : Z
}.

Inductive Authentication : Type := NTLM.

(** A directory entry as the provider reads it.  The provider uses the
    [.value] of the account-name and display-name attributes only as
    text, in log records and in the message of the group denial, so
    [entry_attrs] holds that text by attribute name; an attribute
    without value is absent from it (its [.value] is [None]).  The
    [.value] of [memberOf] is iterated: [entry_memberOf] holds the items
    the iteration yields, and is [None] when the [.value] is [None],
    which cannot be iterated. *)
Record Entry : Type := {
  entry_dn : string;
  entry_attrs : gmap string string;
  entry_memberOf : option (list string)
}.

(** The [ldap3.Connection] object: a mutable object in Python, threaded
    through the calls here. *)
Record Connection : Type := {
  conn_server : Server;
  conn_user : string;
  conn_password : string;
  conn_authentication : option Authentication;
  conn_tls_started : bool;
  conn_entries : list Entry
}.

Record SearchRequest : Type := {
  search_base : string;
  search_filter : string;
  search_size_limit : Z;
  search_time_limit : Z;
  search_attributes : list string
}.

(** ** The environment: answers of [ldap3] *)

Inductive Ldap3Result (A : Type) : Type :=
| Answer (a : A)
| Fails (e : Ldap3Exception).
Arguments Answer {A} a.
Arguments Fails {A} e.

(** [ldap3_Server] answers the construction of the [ldap3.Tls] and
    [ldap3.Server] objects, which opens no connection but checks its
    arguments; [ldap3_Connection] answers [ldap3.Connection(server,
    user=, password=, authentication=, auto_bind=True)]; the other three
    answer the methods [starttls], [search] (the response entries) and
    [rebind] called on a connection.  [ldap3_starttls] is [None] when the
    connection object has no method of that name. *)
Record Ldap3 : Type := {
  ldap3_Server : Server -> Ldap3Result unit;
  ldap3_Connection :
    Server -> string -> string -> option Authentication -> Ldap3Result unit;
  ldap3_starttls : Connection -> option (Ldap3Result bool);
  ldap3_search : Connection -> SearchRequest -> Ldap3Result (list Entry);
  ldap3_rebind : Connection -> string -> string -> Ldap3Result bool
}.

(** ** Events *)

Inductive LogLevel : Type := DEBUG | INFO | ERROR.

(** The log records of the module, by call site. *)
Inductive LogRecord : Type :=
| LogServerInfo (server : Server)
| LogConnection (conn : Connection)
| LogSearchNoResults
| LogFoundUser (display_name uid : string)
| LogCheckingGroups (allowed : list string)
| LogMemberOf (uid : string) (user_groups : option (list string))
| LogErrorInBind
| LogBindFailed (exc : Ldap3Exception).

Inductive Event : Type :=
| EvBind (server : Server) (user password : string)
         (authentication : option Authentication)
| EvStartTls
| EvSearch (req : SearchRequest)
| EvRebind (user password : string)
| EvLog (level : LogLevel) (record : LogRecord)
| EvCreateCredentials (data : gmap string string).

(** ** The monad *)

Inductive Res (A : Type) : Type :=
| Ret (a : A)
| Raise (e : Exn).
Arguments Ret {A} a.
Arguments Raise {A} e.

Definition M (A : Type) : Type := Res A * list Event.

#[global] Instance M_ret : MRet M := fun A a => (Ret a, []).

#[global] Instance M_bind : MBind M := fun A B f m =>
  match m with
  | (Ret a, t) => let '(r, t') := f a in (r, t ++ t')
  | (Raise e, t) => (Raise e, t)
  end.

Definition emit (ev : Event) : M unit := (Ret tt, [ev]).

Definition raise {A : Type} (e : Exn) : M A := (Raise e, []).

Definition log (level : LogLevel) (record : LogRecord) : M unit :=
  emit (EvLog level record).

(** [try: body except ...: handler]: [handler e] is [None] when no
    [except] clause matches [e]. *)
Definition try_except {A : Type} (body : M A)
    (handler : Exn -> option (M A)) : M A :=
  match body with
  | (Ret a, t) => (Ret a, t)
  | (Raise e, t) =>
      match handler e with
      | Some h => let '(r, t') := h in (r, t ++ t')
      | None => (Raise e, t)
      end
  end.

(** A call into [ldap3]: the event, then the library's answer. *)
Definition call {A : Type} (ev : Event) (r : Ldap3Result A) : M A :=
  match r with
  | Answer a => (Ret a, [ev])
  | Fails e => (Raise (Ldap3Exn e), [ev])
  end.

(** [d[key]] on a Python dict. *)
Definition dict_get (d : gmap string string) (key : string) : M string :=
  match d !! key with
  | Some v => mret v
  | None => raise (KeyError key)
  end.

(** [self.config[key]] for one of the optional keys. *)
Definition config_get (key : string) (v : option string) : M string :=
  match v with
  | Some s => mret s
  | None => raise (KeyError key)
  end.

Definition outcome {A : Type} (m : M A) : Res A := fst m.
Definition trace {A : Type} (m : M A) : list Event := snd m.

(** ** Strings *)

(** [str.lower()] on ASCII text: the letters [A]..[Z] go to [a]..[z],
    every other character is kept.  Python also folds the cased letters
    outside ASCII, which this embedding does not know: names with such
    letters are outside of it. *)
Definition lower_ascii (c : ascii) : ascii :=
  let n := nat_of_ascii c in
  if ((65 <=? n)%nat && (n <=? 90)%nat)%bool then ascii_of_nat (n + 32) else c.

Fixpoint lower (s : string) : string :=
  match s with
  | EmptyString => EmptyString
  | String c rest => String (lower_ascii c) (lower rest)
  end.

(** The text on which [lower] is [str.lower()]. *)
Definition ascii_text (s : string) : bool :=
  forallb (fun c => (nat_of_ascii c <? 128)%nat) (list_ascii_of_string s).

(** ** [LdapAuthProvider.async_validate_login] *)

(** [conn.entries[0]]. *)
Definition entries_0 (conn : Connection) : M Entry :=
  match conn_entries conn with
  | e :: _ => mret e
  | [] => raise IndexError
  end.

(** [getattr(entry, name).value], as the text that [%s] and [{}] make
    of it: the three attributes the provider reads are the ones it asked
    for, which the entry has also when the directory returned no value
    for them; the [.value] is then [None]. *)
Definition entry_value (e : Entry) (name : string) : string :=
  match entry_attrs e !! name with
  | Some v => v
  | None => "None"
  end.

(** The items of [[g.lower() for g in user_groups]], before [lower]: the
    iteration of [None] raises [TypeError]. *)
Definition iterate (user_groups : option (list string)) : M (list string) :=
  match user_groups with
  | Some gs => mret gs
  | None => raise TypeError
  end.

(** [ldap3.Tls()] and [ldap3.Server(...)], lines 91-104. *)
Definition new_Server (ldap3 : Ldap3) (server : Server) : M Server :=
  match ldap3_Server ldap3 server with
  | Answer _ => mret server
  | Fails e => raise (Ldap3Exn e)
  end.

(** [ldap3.Connection(server, user=, password=, authentication=,
    auto_bind=True)]: opens the connection and binds. *)
Definition new_Connection (ldap3 : Ldap3) (server : Server)
    (user password : string) (authentication : option Authentication)
    : M Connection :=
  call (EvBind server user password authentication)
       (ldap3_Connection ldap3 server user password authentication) ≫= fun _ =>
  mret {| conn_server := server; conn_user := user;
          conn_password := password;
          conn_authentication := authentication;
          conn_tls_started := false; conn_entries := [] |}.

(** [conn.starttls()]; the returned flag is not looked at.  The event
    records that the run came to this call, however it ends: when the
    connection has no such method, it ends in [AttributeError]. *)
Definition conn_starttls (ldap3 : Ldap3) (conn : Connection) : M Connection :=
  match ldap3_starttls ldap3 conn with
  | Some answer => call EvStartTls answer
  | None => emit EvStartTls ≫= fun _ => raise AttributeError
  end ≫= fun started =>
  mret {| conn_server := conn_server conn; conn_user := conn_user conn;
          conn_password := conn_password conn;
          conn_authentication := conn_authentication conn;
          conn_tls_started := started; conn_entries := conn_entries conn |}.

(** [conn.search(...)]: stores the response in [conn.entries] and
    returns whether there is any entry. *)
Definition conn_search (ldap3 : Ldap3) (conn : Connection)
    (req : SearchRequest) : M (bool * Connection) :=
  call (EvSearch req) (ldap3_search ldap3 conn req) ≫= fun entries =>
  mret (match entries with [] => false | _ :: _ => true end,
        {| conn_server := conn_server conn; conn_user := conn_user conn;
           conn_password := conn_password conn;
           conn_authentication := conn_authentication conn;
           conn_tls_started := conn_tls_started conn;
           conn_entries := entries |}).

(** [conn.rebind(user=, password=)]. *)
Definition conn_rebind (ldap3 : Ldap3) (conn : Connection)
    (user password : string) : M bool :=
  call (EvRebind user password) (ldap3_rebind ldap3 conn user password).

(** The loop over the allow-list:
    [member = False]
    [for group in allowed: if group.lower() in [g.lower() for g in
    user_groups]: member = True]. *)
Definition is_member (allowed user_groups : list string) : bool :=
  fold_left
    (fun member group =>
       if bool_decide (lower group ∈ lower <$> user_groups) then true
       else member)
    allowed false.

Definition not_a_member_message (uid : string) : string :=
  "User " +:+ uid +:+ " is not a member of any of the required groups".

Definition invalid_credentials_message : string :=
  "Invalid LDAP credentials provided".

(** Lines 162-179: the group membership check. *)
Definition check_group_membership (config : Config) (conn : Connection)
    (uid : string) : M unit :=
  match conf_allowed_group_dns config with
  | [] => mret tt
  | _ :: _ =>
      log DEBUG (LogCheckingGroups (conf_allowed_group_dns config)) ≫= fun _ =>
      entries_0 conn ≫= fun e =>
      let user_groups := entry_memberOf e in
      log INFO (LogMemberOf uid user_groups) ≫= fun _ =>
      iterate user_groups ≫= fun user_groups =>
      let member := is_member (conf_allowed_group_dns config) user_groups in
      if negb member
      then raise (InvalidAuthError (Some (not_a_member_message uid)))
      else mret tt
  end.

(** Lines 181-186: [if not bind_as_user and not conn.rebind(...)]. *)
Definition check_credentials (ldap3 : Ldap3) (bind_as_user : bool)
    (conn : Connection) (password : string) : M unit :=
  if negb bind_as_user
  then
    entries_0 conn ≫= fun e =>
    conn_rebind ldap3 conn (entry_dn e) password ≫= fun ok =>
    if negb ok
    then log ERROR LogErrorInBind ≫= fun _ =>
         raise (InvalidAuthError (Some invalid_credentials_message))
    else mret tt
  else mret tt.

(** Lines 91-104: the arguments of the TLS settings and of the server. *)
Definition the_server (config : Config) : Server :=
  let tls :=
    {| tls_validate :=
         if negb (conf_validate_certificates config) then CERT_NONE
         else TLS_LIBRARY_DEFAULT |} in
  let encryption := conf_encryption config in
  {| server_host := conf_server config;
     server_port := conf_port config;
     server_use_ssl := bool_decide (encryption = CONF_ENCRYPTION_LDAPS);
     server_tls := tls;
     server_connect_timeout := conf_timeout config |}.

(** The body of the [try] statement, lines 91-186. *)
Definition validate_login_body (ldap3 : Ldap3) (config : Config)
    (username password : string) : M unit :=
  let encryption := conf_encryption config in
  new_Server ldap3 (the_server config) ≫= fun server =>
  let bind_as_user := conf_bind_as_user config in
  (if bind_as_user then config_get "bind_username" (conf_bind_username config)
   else mret username) ≫= fun bind_username =>
  (if bind_as_user then config_get "bind_password" (conf_bind_password config)
   else mret password) ≫= fun bind_password =>
  let base_dn := conf_base_dn config in
  let username_attr :=
    if conf_active_directory config then "sAMAccountName"
    else conf_username_attribute config in
  (if conf_active_directory config
   then new_Connection ldap3 server bind_username bind_password (Some NTLM)
   else new_Connection ldap3 server
          (username_attr +:+ "=" +:+ bind_username +:+ "," +:+ base_dn)
          bind_password None) ≫= fun conn =>
  (if bool_decide (encryption = CONF_ENCRYPTION_STARTTLS)
   then conn_starttls ldap3 conn
   else mret conn) ≫= fun conn =>
  log DEBUG (LogServerInfo server) ≫= fun _ =>
  log DEBUG (LogConnection conn) ≫= fun _ =>
  conn_search ldap3 conn
    {| search_base := conf_base_dn config;
       search_filter := "(objectclass=person)";
       search_size_limit := 1;
       search_time_limit := conf_timeout config;
       search_attributes := [username_attr; "displayName"; "memberOf"] |}
    ≫= fun '(found, conn) =>
  (if negb found
   then log ERROR LogSearchNoResults ≫= fun _ => raise LdapError
   else mret tt) ≫= fun _ =>
  entries_0 conn ≫= fun e =>
  let uid := entry_value e username_attr in
  entries_0 conn ≫= fun e =>
  let display_name := entry_value e "displayName" in
  log INFO (LogFoundUser display_name uid) ≫= fun _ =>
  check_group_membership config conn uid ≫= fun _ =>
  check_credentials ldap3 bind_as_user conn password.

(** [except ldap3.core.exceptions.LDAPBindError as exc], lines 188-190. *)
Definition validate_login_handler (e : Exn) : option (M unit) :=
  match e with
  | Ldap3Exn LDAPBindError =>
      Some (log ERROR (LogBindFailed LDAPBindError) ≫= fun _ =>
            raise (InvalidAuthError None))
  | _ => None
  end.

Definition async_validate_login (ldap3 : Ldap3) (config : Config)
    (username password : string) : M unit :=
  try_except (validate_login_body ldap3 config username password)
             validate_login_handler.

(** ** [LdapLoginFlow.async_step_init] *)

Inductive PyType : Type := py_str.

(** What the step returns: the two methods of the [LoginFlow] base class
    the step ends in, with their arguments. *)
Inductive FlowResult : Type :=
| async_show_form (step_id : string) (data_schema : list (string * PyType))
                  (errors : gmap string string)
| async_finish (flow_result : gmap string string).

(** The [except] clauses of the step, lines 229-233. *)
Definition step_init_handler (errors : gmap string string) (e : Exn)
    : option (M (gmap string string)) :=
  match e with
  | InvalidAuthError _ => Some (mret (<["base" := "invalid_auth"]> errors))
  | LdapError => Some (mret (<["base" := "error"]> errors))
  | _ => None
  end.

Definition init_form (errors : gmap string string) : FlowResult :=
  let schema := [("username", py_str); ("password", py_str)] in
  async_show_form "init" schema errors.

Definition async_step_init (ldap3 : Ldap3) (config : Config)
    (user_input : option (gmap string string)) : M FlowResult :=
  let errors : gmap string string := ∅ in
  match user_input with
  | Some user_input =>
      try_except
        (dict_get user_input "username" ≫= fun username =>
         dict_get user_input "password" ≫= fun password =>
         async_validate_login ldap3 config username password ≫= fun _ =>
         mret errors)
        (step_init_handler errors) ≫= fun errors =>
      if bool_decide (errors = ∅)
      then mret (async_finish (delete "password" user_input))
      else mret (init_form errors)
  | None => mret (init_form errors)
  end.

(** ** [LdapAuthProvider.async_get_or_create_credentials] *)

(** The host's [Credentials] model, as far as the provider reads it. *)
Record Credentials : Type := {
  cred_id : string;
  cred_data : gmap string string;
  cred_is_new : bool
}.

(** The [for] loop of lines 198-200 over [self.async_credentials()]. *)
Fixpoint find_credentials (username : string) (credentials : list Credentials)
    : M (option Credentials) :=
  match credentials with
  | [] => mret None
  | credential :: rest =>
      dict_get (cred_data credential) "username" ≫= fun stored =>
      if bool_decide (stored = username) then mret (Some credential)
      else find_credentials username rest
  end.

Section Credentials.
(** [self.async_create_credentials], a method of the [AuthProvider]
    base class, and [self.async_credentials()], the credentials the
    host has stored for this provider. *)
Variable async_create_credentials : gmap string string -> Credentials.
Variable async_credentials : list Credentials.

Definition async_get_or_create_credentials
    (flow_result : gmap string string) : M Credentials :=
  dict_get flow_result "username" ≫= fun username =>
  find_credentials username async_credentials ≫= fun found =>
  match found with
  | Some credential => mret credential
  | None =>
      let data : gmap string string := {["username" := username]} in
      emit (EvCreateCredentials data) ≫= fun _ =>
      mret (async_create_credentials data)
  end.
End Credentials.

(** [async_user_meta_for_credentials], lines 205-212. *)
Record UserMeta : Type := { meta_name : string; meta_is_active : bool }.

Definition async_user_meta_for_credentials (credentials : Credentials)
    : M UserMeta :=
  dict_get (cred_data credentials) "username" ≫= fun name =>
  mret {| meta_name := name; meta_is_active := true |}.

(** ** The failure kinds *)

(** The kinds of failure of a login, as the exceptions that carry them:
    a rejected bind or re-bind raises [InvalidAuthError] without or with
    the fixed message, a failed group check raises it with the message
    naming the user, an empty search raises [LdapError]. *)
Definition InvalidCredentials (e : Exn) : Prop :=
  e = InvalidAuthError None \/
  e = InvalidAuthError (Some invalid_credentials_message).

Definition GroupMembershipDenied (uid : string) (e : Exn) : Prop :=
  e = InvalidAuthError (Some (not_a_member_message uid)).

Definition DirectoryQueryFailure (e : Exn) : Prop := e = LdapError.

(** ** Observations on traces *)

Definition is_bind (ev : Event) : bool :=
  match ev with EvBind _ _ _ _ => true | _ => false end.

Definition is_starttls (ev : Event) : bool :=
  match ev with EvStartTls => true | _ => false end.

Definition is_search (ev : Event) : bool :=
  match ev with EvSearch _ => true | _ => false end.

Definition is_rebind (ev : Event) : bool :=
  match ev with EvRebind _ _ => true | _ => false end.

(** The user the provider binds as on opening the connection: the name
    itself under Active Directory, otherwise the distinguished name built
    from the username attribute and the base DN. *)
Definition bind_user (config : Config) (name : string) : string :=
  if conf_active_directory config then name
  else conf_username_attribute config +:+ "=" +:+ name +:+ "," +:+
       conf_base_dn config.

Definition bind_authentication (config : Config) : option Authentication :=
  if conf_active_directory config then Some NTLM else None.

(** ** The values of an attribute *)

(** The one-character strings a Python string is made of. *)
Fixpoint characters (s : string) : list string :=
  match s with
  | EmptyString => []
  | String c rest => String c EmptyString :: characters rest
  end.

(** What the iteration of the [.value] of an attribute of [ldap3]
    yields, by the values the directory returned for the attribute:
    without value the [.value] is [None]; with one value it is that
    value, a string, whose iteration yields its characters; with more it
    is the list of the values. *)
Definition memberOf_items (values : list string) : option (list string) :=
  match values with
  | [] => None
  | [value] => Some (characters value)
  | _ :: _ :: _ => Some values
  end.

(** ** The operations of a run *)

(** The name of the attribute that holds the account name, lines
    116-120. *)
Definition username_attr (config : Config) : string :=
  if conf_active_directory config then "sAMAccountName"
  else conf_username_attribute config.

(** The search the provider sends, lines 146-152. *)
Definition the_search (config : Config) : SearchRequest :=
  {| search_base := conf_base_dn config;
     search_filter := "(objectclass=person)";
     search_size_limit := 1;
     search_time_limit := conf_timeout config;
     search_attributes := [username_attr config; "displayName"; "memberOf"] |}.

(** The calls into [ldap3] of a trace, without their arguments. *)
Inductive Operation : Type := OpBind | OpStartTls | OpSearch | OpRebind.

Definition operation (ev : Event) : option Operation :=
  match ev with
  | EvBind _ _ _ _ => Some OpBind
  | EvStartTls => Some OpStartTls
  | EvSearch _ => Some OpSearch
  | EvRebind _ _ => Some OpRebind
  | EvLog _ _ => None
  | EvCreateCredentials _ => None
  end.

Definition operations (t : list Event) : list Operation := omap operation t.

(** The calls a run makes when nothing stops it, by the configuration. *)
Definition all_operations (config : Config) : list Operation :=
  [OpBind]
  ++ (if bool_decide (conf_encryption config = CONF_ENCRYPTION_STARTTLS)
      then [OpStartTls] else [])
  ++ [OpSearch]
  ++ (if conf_bind_as_user config then [] else [OpRebind]).

(** The configuration with other values under the two optional keys. *)
Definition with_bind_credentials (u p : option string) (c : Config) : Config :=
  {| conf_active_directory := conf_active_directory c;
     conf_allowed_group_dns := conf_allowed_group_dns c;
     conf_base_dn := conf_base_dn c;
     conf_bind_as_user := conf_bind_as_user c;
     conf_bind_username := u;
     conf_bind_password := p;
     conf_validate_certificates := conf_validate_certificates c;
     conf_encryption := conf_encryption c;
     conf_port := conf_port c;
     conf_server := conf_server c;
     conf_timeout := conf_timeout c;
     conf_username_attribute := conf_username_attribute c |}.

(** The name and the password the connection is bound with, lines
    106-112: the two optional keys of the configuration under
    [bind_as_user], the request's otherwise. *)
Definition bind_credentials (config : Config) (username password : string)
    : option (string * string) :=
  if conf_bind_as_user config then
    match conf_bind_username config, conf_bind_password config with
    | Some u, Some p => Some (u, p)
    | _, _ => None
    end
  else Some (username, password).

(** ** A small directory, for the examples *)

Module Examples.

Definition alice_dn : string := "uid=alice,dc=example,dc=com".

(** Alice is in the staff group only, bob in the guests group only. *)
Definition alice : Entry :=
  {| entry_dn := alice_dn;
     entry_attrs := {["uid" := "alice"; "displayName" := "Alice Liddell"]};
     entry_memberOf := memberOf_items ["cn=staff,dc=example,dc=com"] |}.

Definition bob : Entry :=
  {| entry_dn := "uid=bob,dc=example,dc=com";
     entry_attrs := {["uid" := "bob"; "displayName" := "Bob"]};
     entry_memberOf := memberOf_items ["cn=guests,dc=example,dc=com"] |}.

(** Carol is in two groups, dave in none. *)
Definition carol : Entry :=
  {| entry_dn := "uid=carol,dc=example,dc=com";
     entry_attrs := {["uid" := "carol"; "displayName" := "Carol"]};
     entry_memberOf :=
       memberOf_items ["cn=users,dc=example,dc=com";
                       "cn=staff,dc=example,dc=com"] |}.

Definition dave : Entry :=
  {| entry_dn := "uid=dave,dc=example,dc=com";
     entry_attrs := {["uid" := "dave"]};
     entry_memberOf := memberOf_items [] |}.

(** The defaults of [CONFIG_SCHEMA], with a service account. *)
Definition service_config : Config :=
  {| conf_active_directory := false;
     conf_allowed_group_dns := [];
     conf_base_dn := "dc=example,dc=com";
     conf_bind_as_user := true;
     conf_bind_username := Some "svc";
     conf_bind_password := Some "svc-secret";
     conf_validate_certificates := true;
     conf_encryption := CONF_ENCRYPTION_LDAPS;
     conf_port := 636;
     conf_server := "ldap.example.com";
     conf_timeout := 10;
     conf_username_attribute := "uid" |}.

Definition with_bind_as_user (b : bool) (c : Config) : Config :=
  {| conf_active_directory := conf_active_directory c;
     conf_allowed_group_dns := conf_allowed_group_dns c;
     conf_base_dn := conf_base_dn c;
     conf_bind_as_user := b;
     conf_bind_username := conf_bind_username c;
     conf_bind_password := conf_bind_password c;
     conf_validate_certificates := conf_validate_certificates c;
     conf_encryption := conf_encryption c;
     conf_port := conf_port c;
     conf_server := conf_server c;
     conf_timeout := conf_timeout c;
     conf_username_attribute := conf_username_attribute c |}.

Definition with_encryption (e : Encryption) (c : Config) : Config :=
  {| conf_active_directory := conf_active_directory c;
     conf_allowed_group_dns := conf_allowed_group_dns c;
     conf_base_dn := conf_base_dn c;
     conf_bind_as_user := conf_bind_as_user c;
     conf_bind_username := conf_bind_username c;
     conf_bind_password := conf_bind_password c;
     conf_validate_certificates := conf_validate_certificates c;
     conf_encryption := e;
     conf_port := conf_port c;
     conf_server := conf_server c;
     conf_timeout := conf_timeout c;
     conf_username_attribute := conf_username_attribute c |}.

Definition with_allowed_group_dns (l : list string) (c : Config) : Config :=
  {| conf_active_directory := conf_active_directory c;
     conf_allowed_group_dns := l;
     conf_base_dn := conf_base_dn c;
     conf_bind_as_user := conf_bind_as_user c;
     conf_bind_username := conf_bind_username c;
     conf_bind_password := conf_bind_password c;
     conf_validate_certificates := conf_validate_certificates c;
     conf_encryption := conf_encryption c;
     conf_port := conf_port c;
     conf_server := conf_server c;
     conf_timeout := conf_timeout c;
     conf_username_attribute := conf_username_attribute c |}.

Definition user_config : Config := with_bind_as_user false service_config.

(** The directory knows the service account and alice, whose password
    is [wonderland]. *)
Definition accepts (user password : string) : bool :=
  bool_decide (user = "uid=svc,dc=example,dc=com" /\ password = "svc-secret")
  || bool_decide (user = alice_dn /\ password = "wonderland")
  || bool_decide (user = entry_dn carol /\ password = "looking-glass")
  || bool_decide (user = entry_dn dave /\ password = "snark").

Definition directory (people : list Entry) : Ldap3 :=
  {| ldap3_Server := fun _ => Answer tt;
     ldap3_Connection := fun _ user password _ =>
       if accepts user password then Answer tt else Fails LDAPBindError;
     ldap3_starttls := fun _ => Some (Answer true);
     ldap3_search := fun _ _ => Answer (take 1 people);
     ldap3_rebind := fun _ user password => Answer (accepts user password) |}.

(** A server that cannot be reached. *)
Definition unreachable : Ldap3 :=
  {| ldap3_Server := fun _ => Answer tt;
     ldap3_Connection := fun _ _ _ _ => Fails LDAPSocketOpenError;
     ldap3_starttls := fun _ => Some (Fails LDAPStartTLSError);
     ldap3_search := fun _ _ => Fails LDAPResponseTimeoutError;
     ldap3_rebind := fun _ _ _ => Fails LDAPSocketOpenError |}.

(** A server that takes the bind and then refuses to negotiate TLS. *)
Definition refuses_tls (people : list Entry) : Ldap3 :=
  {| ldap3_Server := ldap3_Server (directory people);
     ldap3_Connection := ldap3_Connection (directory people);
     ldap3_starttls := fun _ => Some (Fails LDAPStartTLSError);
     ldap3_search := ldap3_search (directory people);
     ldap3_rebind := ldap3_rebind (directory people) |}.

Definition login (username password : string) : gmap string string :=
  {["username" := username; "password" := password]}.

Definition staff_only : list string := ["CN=Staff,DC=Example,DC=Com"].

(** Credentials the host has stored, and the host's constructor. *)
Definition credentials_of (id username : string) : Credentials :=
  {| cred_id := id; cred_data := {["username" := username]};
     cred_is_new := false |}.

Definition stored : list Credentials :=
  [credentials_of "c1" "bob"; credentials_of "c2" "alice";
   credentials_of "c3" "alice"].

Definition create (data : gmap string string) : Credentials :=
  {| cred_id := "fresh"; cred_data := data; cred_is_new := true |}.

(** The same directory behind a client whose connections have no
    method [starttls], as those of [ldap3], whose method is [start_tls]. *)
Definition without_starttls (people : list Entry) : Ldap3 :=
  {| ldap3_Server := ldap3_Server (directory people);
     ldap3_Connection := ldap3_Connection (directory people);
     ldap3_starttls := fun _ => None;
     ldap3_search := ldap3_search (directory people);
     ldap3_rebind := ldap3_rebind (directory people) |}.

(** Configurations without the service account, or with a wrong
    password for it. *)
Definition no_service_account : Config :=
  with_bind_credentials None None service_config.

Definition no_service_password : Config :=
  with_bind_credentials (Some "svc") None service_config.

Definition wrong_service_password : Config :=
  with_bind_credentials (Some "svc") (Some "oops") service_config.

Definition starttls_config : Config :=
  with_encryption CONF_ENCRYPTION_STARTTLS user_config.

(** A stored credential whose data has no user name. *)
Definition nameless : Credentials :=
  {| cred_id := "c0"; cred_data := ∅; cred_is_new := false |}.

End Examples.

(** * Properties *)

(** ** Tactics for the case analysis of a run *)

Arguments is_member : simpl never.
Arguments lower : simpl never.

Ltac unfold_login :=
  unfold async_validate_login, validate_login_body, check_group_membership,
    check_credentials, new_Server, new_Connection, conn_starttls,
    conn_search, conn_rebind, entries_0, iterate,
    config_get, dict_get, call, log, emit, raise, try_except,
    validate_login_handler, bind_user, bind_authentication,
    outcome, trace, mbind, mret, M_bind, M_ret in *.

(** One step of a run: case analysis on the innermost thing the code
    branches on. *)
Ltac step :=
  match goal with
  | |- context [match ?x with _ => _ end] =>
      lazymatch x with
      | context [match _ with _ => _ end] => fail
      | _ => destruct x eqn:?
      end
  end; simpl in *.

Ltac run_login :=
  unfold_login; simpl in *;
  repeat match goal with
         | H : ?f ?c = _ |- _ =>
             match type of c with Config => progress rewrite H end
         end;
  simpl;
  repeat step;
  repeat match goal with u : unit |- _ => destruct u end.

(** An event that is not in a trace given in full. *)
Ltac not_in_trace H :=
  repeat (apply elem_of_cons in H as [H | H]; [discriminate H |]);
  apply elem_of_nil in H; contradiction.

(** ** The membership test *)

Lemma is_member_fold (user_groups allowed : list string) (member : bool) :
  fold_left
    (fun member group =>
       if bool_decide (lower group ∈ lower <$> user_groups) then true
       else member)
    allowed member = true <->
  member = true \/
  exists group, group ∈ allowed /\ lower group ∈ lower <$> user_groups.
Proof.
  revert member. induction allowed as [| a allowed IH]; intros member; simpl.
  - split; [auto |]. intros [H | (g & Hg & _)]; [exact H |].
    apply elem_of_nil in Hg. contradiction.
  - rewrite IH. case_bool_decide as Ha.
    + split; [| auto]. intros _. right. exists a. split; [left | exact Ha].
    + split.
      * intros [H | (g & Hg & Hin)]; [auto |].
        right. exists g. split; [right; exact Hg | exact Hin].
      * intros [H | (g & Hg & Hin)]; [auto |].
        apply elem_of_cons in Hg as [-> | Hg]; [contradiction |].
        right. exists g. auto.
Qed.

Lemma is_member_true (allowed user_groups : list string) :
  is_member allowed user_groups = true <->
  exists group g,
    group ∈ allowed /\ g ∈ user_groups /\ lower group = lower g.
Proof.
  unfold is_member. rewrite is_member_fold. split.
  - intros [H | (group & Hg & Hin)]; [discriminate H |].
    apply list_elem_of_fmap in Hin as (g & Heq & Hin).
    exists group, g. auto.
  - intros (group & g & Hg & Hin & Heq). right. exists group.
    split; [exact Hg |]. rewrite Heq. apply list_elem_of_fmap. eauto.
Qed.

Lemma messages_differ (uid : string) :
  not_a_member_message uid <> invalid_credentials_message.
Proof. discriminate. Qed.

(** ** The login flow on top of the decision *)

(** What the step returns, by the outcome of the validation. *)
Lemma step_init_outcome (ldap3 : Ldap3) (config : Config)
    (user_input : gmap string string) (username password : string) :
  user_input !! "username" = Some username ->
  user_input !! "password" = Some password ->
  outcome (async_step_init ldap3 config (Some user_input)) =
  match outcome (async_validate_login ldap3 config username password) with
  | Ret _ => Ret (async_finish (delete "password" user_input))
  | Raise (InvalidAuthError _) =>
      Ret (init_form {["base" := "invalid_auth"]})
  | Raise LdapError => Ret (init_form {["base" := "error"]})
  | Raise e => Raise e
  end.
Proof.
  intros Hu Hp. unfold async_step_init, dict_get. rewrite Hu, Hp.
  assert (Hne : forall v : string,
             bool_decide (<["base" := v]> (∅ : gmap string string) = ∅)
             = false).
  { intros v. apply bool_decide_eq_false. apply insert_non_empty. }
  unfold try_except, step_init_handler, outcome, mbind, mret, M_bind, M_ret.
  simpl.
  destruct (async_validate_login ldap3 config username password)
    as [[[] | e] t]; simpl.
  - rewrite bool_decide_eq_true_2 by reflexivity. reflexivity.
  - destruct e; simpl; rewrite ?Hne; reflexivity.
Qed.

(** ** The order of the operations on the connection *)

Lemma starttls_after_bind (ldap3 : Ldap3) (config : Config)
    (username password : string) :
  EvStartTls ∈ trace (async_validate_login ldap3 config username password) ->
  conf_encryption config = CONF_ENCRYPTION_STARTTLS /\
  exists server user pw auth rest,
    trace (async_validate_login ldap3 config username password) =
    EvBind server user pw auth :: EvStartTls :: rest /\
    ldap3_Connection ldap3 server user pw auth = Answer tt /\
    Forall (fun ev => is_bind ev = false /\ is_starttls ev = false) rest.
Proof.
  destruct (conf_encryption config) eqn:Henc;
    run_login; intros Hin; try not_in_trace Hin;
    (split; [reflexivity |]);
    do 5 eexists; (split; [reflexivity |]); (split; [eassumption |]);
    repeat constructor.
Qed.

Lemma starttls_when_bound (ldap3 : Ldap3) (config : Config)
    (username password : string) server user pw auth rest :
  conf_encryption config = CONF_ENCRYPTION_STARTTLS ->
  trace (async_validate_login ldap3 config username password) =
  EvBind server user pw auth :: rest ->
  ldap3_Connection ldap3 server user pw auth = Answer tt ->
  exists rest', rest = EvStartTls :: rest'.
Proof.
  intros Henc. run_login; intros Ht Ha; simplify_eq; try congruence;
    eexists; reflexivity.
Qed.

(** ** The search for a stored credential *)

Lemma find_credentials_first (username : string)
    (credentials : list Credentials) :
  Forall (fun c => is_Some (cred_data c !! "username")) credentials ->
  (exists c, c ∈ credentials /\ cred_data c !! "username" = Some username) ->
  exists pre found post,
    credentials = pre ++ found :: post /\
    cred_data found !! "username" = Some username /\
    Forall (fun c => cred_data c !! "username" <> Some username) pre /\
    find_credentials username credentials = mret (Some found).
Proof.
  induction credentials as [| c0 rest IH]; intros Hkeys (c & Hin & Hc).
  - apply elem_of_nil in Hin. contradiction.
  - apply Forall_cons in Hkeys as [[stored Hstored] Hkeys].
    destruct (decide (stored = username)) as [-> | Hne].
    + exists [], c0, rest. repeat split; [exact Hstored | constructor |].
      simpl. unfold dict_get. rewrite Hstored.
      unfold mbind, mret, M_bind, M_ret. simpl.
      rewrite bool_decide_eq_true_2 by reflexivity. reflexivity.
    + apply elem_of_cons in Hin as [-> | Hin]; [congruence |].
      destruct (IH Hkeys (ex_intro _ c (conj Hin Hc)))
        as (pre & found & post & -> & Hfound & Hpre & Hfind).
      exists (c0 :: pre), found, post. repeat split; [exact Hfound | |].
      * constructor; [congruence | exact Hpre].
      * simpl. unfold dict_get. rewrite Hstored.
        unfold mbind, mret, M_bind, M_ret. simpl.
        rewrite bool_decide_eq_false_2 by exact Hne.
        rewrite Hfind. reflexivity.
Qed.

Lemma find_credentials_app (username : string)
    (credentials more : list Credentials) (found : Credentials) :
  find_credentials username credentials = mret (Some found) ->
  find_credentials username (credentials ++ more) = mret (Some found).
Proof.
  induction credentials as [| c0 rest IH]; simpl; [discriminate |].
  unfold dict_get. destruct (cred_data c0 !! "username") as [stored |];
    [| discriminate].
  unfold mbind, mret, M_bind, M_ret. simpl.
  case_bool_decide; [trivial |].
  intros Hfind.
  destruct (find_credentials username rest) as [r t] eqn:Hrest.
  assert (Hrt : (r, t) = (Ret (Some found), [])).
  { destruct r; simpl in Hfind; exact Hfind. }
  rewrite (IH Hrt). reflexivity.
Qed.

(** ** The claims *)

Import Examples.

(** C1 (the code departs from the claim).  Under the configuration that
    binds with the service account, the bind and the search succeed, the
    directory would reject alice's distinguished name with the password
    [wrong], and yet the validation returns normally: the run contains no
    re-bind at all, so the password of the request is never tested. *)
Theorem C1_service_bind_never_checks_password :
  let run :=
    async_validate_login (directory [alice]) service_config "alice" "wrong" in
  conf_bind_as_user service_config = true /\
  (forall conn, ldap3_rebind (directory [alice]) conn (entry_dn alice) "wrong"
                = Answer false) /\
  outcome run = Ret tt /\
  Forall (fun ev => is_rebind ev = false) (trace run).
Proof.
  repeat split.
  vm_compute. repeat constructor.
Qed.

(** C2 (the code departs from the claim).  Without the service account
    the bind under the credentials of the request is not the only bind:
    after the bind and the search the code binds the connection again,
    under the distinguished name of the entry found.  Alice with her own
    password makes a run of bind, search and re-bind; and when the first
    person the search returns is bob, her second bind goes under the
    name of bob and her login is refused, though the directory took her
    own credentials. *)
Theorem C2_user_bind_is_followed_by_rebind :
  let alone :=
    async_validate_login (directory [alice]) user_config
      "alice" "wonderland" in
  let after_bob :=
    async_validate_login (directory [bob; alice]) user_config
      "alice" "wonderland" in
  conf_bind_as_user user_config = false /\
  outcome alone = Ret tt /\
  operations (trace alone) = [OpBind; OpSearch; OpRebind] /\
  EvRebind (entry_dn alice) "wonderland" ∈ trace alone /\
  ldap3_Connection (directory [bob; alice]) (the_server user_config)
    "uid=alice,dc=example,dc=com" "wonderland" None = Answer tt /\
  operations (trace after_bob) = [OpBind; OpSearch; OpRebind] /\
  EvRebind (entry_dn bob) "wonderland" ∈ trace after_bob /\
  outcome after_bob
  = Raise (InvalidAuthError (Some "Invalid LDAP credentials provided")).
Proof.
  vm_compute. repeat split; repeat first [left | right].
Qed.

(** C3.  When the configuration binds with the service account, the run
    of the validation (its outcome and its whole trace, with the log
    record of the user found) is the same for any two requests: neither
    the user name nor the password of the request is used.  The run
    contains no re-bind, and its only search filter is
    [(objectclass=person)]. *)
Theorem C3_service_bind_ignores_request (ldap3 : Ldap3) (config : Config)
    (username1 password1 username2 password2 : string) :
  conf_bind_as_user config = true ->
  async_validate_login ldap3 config username1 password1 =
  async_validate_login ldap3 config username2 password2 /\
  Forall (fun ev => is_rebind ev = false)
    (trace (async_validate_login ldap3 config username1 password1)) /\
  (forall req,
     EvSearch req ∈ trace (async_validate_login ldap3 config
                               username1 password1) ->
     search_filter req = "(objectclass=person)").
Proof.
  intros Hflag. split; [| split].
  - unfold async_validate_login, validate_login_body, check_credentials.
    rewrite Hflag. reflexivity.
  - run_login; repeat constructor.
  - intros req. run_login; intros Hin;
      repeat (apply elem_of_cons in Hin as [Hin | Hin];
              [first [discriminate Hin | injection Hin as ->; reflexivity] |]);
      apply elem_of_nil in Hin; contradiction.
Qed.

(** C3, on the example directory: alice with her password and a
    stranger with a guess get the same run. *)
Lemma C3_service_bind_example :
  async_validate_login (directory [alice]) service_config
    "alice" "wonderland" =
  async_validate_login (directory [alice]) service_config "mallory" "guess" /\
  Forall (fun ev => is_rebind ev = false)
    (trace (async_validate_login (directory [alice]) service_config
              "alice" "wonderland")) /\
  (forall req,
     EvSearch req ∈ trace (async_validate_login (directory [alice])
                               service_config "alice" "wonderland") ->
     search_filter req = "(objectclass=person)").
Proof.
  apply (C3_service_bind_ignores_request (directory [alice]) service_config
           "alice" "wonderland" "mallory" "guess").
  reflexivity.
Defined.

(** C4 (the code departs from the claim).  A fault of the transport is
    not turned into an error code of the form: when the server cannot be
    reached, and when it refuses the TLS upgrade after the bind, the
    exception of [ldap3] leaves the validation and then the step. *)
Theorem C4_transport_fault_leaves_the_step :
  outcome (async_step_init unreachable service_config
             (Some (login "alice" "wonderland")))
  = Raise (Ldap3Exn LDAPSocketOpenError) /\
  outcome (async_step_init (refuses_tls [alice])
             (with_encryption CONF_ENCRYPTION_STARTTLS service_config)
             (Some (login "alice" "wonderland")))
  = Raise (Ldap3Exn LDAPStartTLSError).
Proof.
  split.
  - rewrite (step_init_outcome _ _ _ "alice" "wonderland") by reflexivity.
    reflexivity.
  - rewrite (step_init_outcome _ _ _ "alice" "wonderland") by reflexivity.
    reflexivity.
Qed.

(** C5.  When the search under the base DN for [(objectclass=person)]
    is performed and answers with no entry, the validation raises
    [LdapError], which is the directory-query failure and not an invalid
    credentials failure, and the step shows the form again with the
    error code [error]. *)
Theorem C5_empty_search_is_ldap_error (ldap3 : Ldap3) (config : Config)
    (username password : string) :
  (forall conn req,
     search_base req = conf_base_dn config ->
     search_filter req = "(objectclass=person)" ->
     ldap3_search ldap3 conn req = Answer []) ->
  (exists req,
     EvSearch req ∈ trace (async_validate_login ldap3 config
                               username password)) ->
  outcome (async_validate_login ldap3 config username password)
  = Raise LdapError /\
  DirectoryQueryFailure LdapError /\
  ~ InvalidCredentials LdapError /\
  forall user_input : gmap string string,
    user_input !! "username" = Some username ->
    user_input !! "password" = Some password ->
    outcome (async_step_init ldap3 config (Some user_input))
    = Ret (async_show_form "init"
             [("username", py_str); ("password", py_str)]
             {["base" := "error"]}).
Proof.
  intros Hempty [req Hin].
  assert (Hout : outcome (async_validate_login ldap3 config username password)
                 = Raise LdapError).
  { revert Hin. run_login; intros Hin; try not_in_trace Hin;
      try reflexivity;
      match goal with
      | Hs : ldap3_search _ ?c ?r = _ |- _ =>
          rewrite (Hempty c r eq_refl eq_refl) in Hs; simplify_eq
      end. }
  split; [exact Hout |]. split; [reflexivity |]. split.
  - intros [H | H]; discriminate H.
  - intros user_input Hu Hp.
    rewrite (step_init_outcome _ _ _ _ _ Hu Hp), Hout. reflexivity.
Qed.

(** C5, on a directory without entries. *)
Lemma C5_empty_search_example :
  outcome (async_validate_login (directory []) user_config
             "alice" "wonderland") = Raise LdapError /\
  outcome (async_step_init (directory []) user_config
             (Some (login "alice" "wonderland")))
  = Ret (async_show_form "init"
           [("username", py_str); ("password", py_str)]
           {["base" := "error"]}).
Proof.
  assert (Hsearch : exists req,
             EvSearch req ∈ trace (async_validate_login (directory [])
                                       user_config "alice" "wonderland")).
  { eexists. vm_compute. do 3 right. left. }
  destruct (C5_empty_search_is_ldap_error (directory []) user_config
              "alice" "wonderland" (fun _ _ _ _ => eq_refl) Hsearch)
    as (Hout & _ & _ & Hstep).
  split; [exact Hout |]. apply Hstep; reflexivity.
Defined.

(** C6 (the code departs from the claim).  On lists of names the
    membership test is the case-insensitive one of the claim, but the
    code does not always give it the groups of the entry.  Alice has the
    one group [cn=staff,dc=example,dc=com] and the allow-list is
    [CN=Staff,DC=Example,DC=Com]: the [.value] of a one-valued attribute
    is a string, the code iterates its characters, no character is the
    allow-listed name, and alice is denied.  Dave has no group: the
    [.value] is [None], the groups are logged, and the iteration raises
    [TypeError] instead of the denial that names him. *)
Theorem C6_one_group_is_read_by_characters :
  let config := with_allowed_group_dns staff_only user_config in
  let run :=
    async_validate_login (directory [alice]) config "alice" "wonderland" in
  let run' :=
    async_validate_login (directory [dave]) config "dave" "snark" in
  is_member staff_only ["cn=staff,dc=example,dc=com"] = true /\
  entry_memberOf alice = memberOf_items ["cn=staff,dc=example,dc=com"] /\
  EvLog INFO
    (LogMemberOf "alice" (Some (characters "cn=staff,dc=example,dc=com")))
    ∈ trace run /\
  outcome run
  = Raise (InvalidAuthError
             (Some "User alice is not a member of any of the required groups"))
  /\
  entry_memberOf dave = memberOf_items [] /\
  EvLog INFO (LogMemberOf "dave" None) ∈ trace run' /\
  outcome run' = Raise TypeError.
Proof.
  vm_compute. repeat split; repeat first [left | right].
Qed.

(** C7.  The TLS upgrade comes right after the bind, and only after a
    bind that succeeded: a run that contains [starttls] is under the
    STARTTLS mode and opens with the bind, answered without an error,
    followed by the upgrade, which occurs once; a run whose bind fails
    contains no upgrade; and under the STARTTLS mode a successful bind
    is followed by the upgrade. *)
Theorem C7_starttls_after_bind (ldap3 : Ldap3) (config : Config)
    (username password : string) :
  let run := async_validate_login ldap3 config username password in
  (EvStartTls ∈ trace run ->
   conf_encryption config = CONF_ENCRYPTION_STARTTLS /\
   exists server user pw auth rest,
     trace run = EvBind server user pw auth :: EvStartTls :: rest /\
     ldap3_Connection ldap3 server user pw auth = Answer tt /\
     Forall (fun ev => is_bind ev = false /\ is_starttls ev = false) rest) /\
  (forall server user pw auth rest e,
     trace run = EvBind server user pw auth :: rest ->
     ldap3_Connection ldap3 server user pw auth = Fails e ->
     EvStartTls ∉ trace run) /\
  (forall server user pw auth rest,
     conf_encryption config = CONF_ENCRYPTION_STARTTLS ->
     trace run = EvBind server user pw auth :: rest ->
     ldap3_Connection ldap3 server user pw auth = Answer tt ->
     exists rest', rest = EvStartTls :: rest').
Proof.
  split; [| split].
  - apply starttls_after_bind.
  - intros server user pw auth rest e Ht Hf Hin.
    apply starttls_after_bind in Hin
      as (_ & server' & user' & pw' & auth' & rest' & Ht' & Ha & _).
    rewrite Ht in Ht'. simplify_eq. congruence.
  - apply starttls_when_bound.
Qed.

(** C7, on an example: under STARTTLS the run is bind, upgrade, search;
    with a rejected bind there is no upgrade. *)
Lemma C7_starttls_example :
  let config := with_encryption CONF_ENCRYPTION_STARTTLS user_config in
  let good := async_validate_login (directory [alice]) config
                "alice" "wonderland" in
  let bad := async_validate_login (directory [alice]) config
               "alice" "wrong" in
  (conf_encryption config = CONF_ENCRYPTION_STARTTLS /\
   exists server user pw auth rest,
     trace good = EvBind server user pw auth :: EvStartTls :: rest /\
     ldap3_Connection (directory [alice]) server user pw auth = Answer tt /\
     Forall (fun ev => is_bind ev = false /\ is_starttls ev = false) rest) /\
  (EvStartTls ∉ trace bad) /\
  (exists rest', tail (trace good) = EvStartTls :: rest').
Proof.
  intros config good bad.
  pose proof (C7_starttls_after_bind (directory [alice]) config
                "alice" "wonderland") as (Hfirst & _ & Hthird).
  pose proof (C7_starttls_after_bind (directory [alice]) config
                "alice" "wrong") as (_ & Hsecond & _).
  split; [| split].
  - apply Hfirst. vm_compute. right. left.
  - apply (Hsecond (the_server config) (bind_user config "alice") "wrong"
             None (tail (trace bad)) LDAPBindError); reflexivity.
  - apply (Hthird (the_server config) (bind_user config "alice")
             "wonderland" None (tail (trace good))); reflexivity.
Defined.

(** C8.  Without input the step shows the form [init] with the two
    fields [username] and [password] and no error.  With an input the
    validation accepts, the step finishes with the input from which the
    password was removed: the payload keeps the user name and has no
    password. *)
Theorem C8_login_flow_round_trip (ldap3 : Ldap3) (config : Config) :
  async_step_init ldap3 config None =
  mret (async_show_form "init" [("username", py_str); ("password", py_str)]
          ∅) /\
  forall (user_input : gmap string string) (username password : string),
    user_input !! "username" = Some username ->
    user_input !! "password" = Some password ->
    outcome (async_validate_login ldap3 config username password) = Ret tt ->
    exists payload : gmap string string,
      outcome (async_step_init ldap3 config (Some user_input))
      = Ret (async_finish payload) /\
      payload = delete "password" user_input /\
      payload !! "username" = Some username /\
      payload !! "password" = None.
Proof.
  split; [reflexivity |].
  intros user_input username password Hu Hp Hok.
  exists (delete "password" user_input).
  rewrite (step_init_outcome _ _ _ _ _ Hu Hp), Hok.
  split; [reflexivity |]. split; [reflexivity |]. split.
  - rewrite lookup_delete_ne by discriminate. exact Hu.
  - apply lookup_delete_eq.
Qed.

(** C8, on the example directory: alice logs in. *)
Lemma C8_login_flow_example :
  exists payload : gmap string string,
    outcome (async_step_init (directory [alice]) user_config
               (Some (login "alice" "wonderland")))
    = Ret (async_finish payload) /\
    payload = delete "password" (login "alice" "wonderland") /\
    payload !! "username" = Some "alice" /\
    payload !! "password" = None.
Proof.
  apply (proj2 (C8_login_flow_round_trip (directory [alice]) user_config)
           (login "alice" "wonderland") "alice" "wonderland");
    reflexivity.
Defined.

(** C9.  When the store holds a credential with the user name of the
    flow result, the provider returns a stored credential with that user
    name, the first one in the store, and makes no call to create one;
    it is the given credential when no other stored credential has the
    name.  Any flow result with the same user name gets the same
    credential, also after further credentials were added to the
    store. *)
Theorem C9_get_or_create_is_idempotent
    (create : gmap string string -> Credentials)
    (credentials : list Credentials) (flow_result : gmap string string)
    (username : string) (credential : Credentials) :
  flow_result !! "username" = Some username ->
  Forall (fun c => is_Some (cred_data c !! "username")) credentials ->
  credential ∈ credentials ->
  cred_data credential !! "username" = Some username ->
  exists found,
    async_get_or_create_credentials create credentials flow_result
    = (Ret found, []) /\
    found ∈ credentials /\
    cred_data found !! "username" = Some username /\
    (exists pre post,
       credentials = pre ++ found :: post /\
       Forall (fun c => cred_data c !! "username" <> Some username) pre) /\
    ((forall c, c ∈ credentials ->
                cred_data c !! "username" = Some username ->
                c = credential) ->
     found = credential) /\
    (forall flow_result' : gmap string string,
       flow_result' !! "username" = Some username ->
       async_get_or_create_credentials create credentials flow_result'
       = (Ret found, [])) /\
    (forall more,
       async_get_or_create_credentials create (credentials ++ more)
         flow_result = (Ret found, [])).
Proof.
  intros Hname Hkeys Hin Hcred.
  destruct (find_credentials_first username credentials Hkeys
              (ex_intro _ credential (conj Hin Hcred)))
    as (pre & found & post & Hsplit & Hfound & Hpre & Hfind).
  assert (Hfound_in : found ∈ credentials).
  { rewrite Hsplit. apply elem_of_app. right. left. }
  assert (Hrun : forall (store : list Credentials)
                        (result : gmap string string),
             result !! "username" = Some username ->
             find_credentials username store = mret (Some found) ->
             async_get_or_create_credentials create store result
             = (Ret found, [])).
  { intros store result Hres Hstore.
    unfold async_get_or_create_credentials, dict_get. rewrite Hres.
    unfold mbind, mret, M_bind, M_ret in *. simpl. rewrite Hstore.
    reflexivity. }
  exists found. repeat split; auto.
  - exists pre, post. auto.
  - intros more. apply Hrun; [exact Hname |].
    apply find_credentials_app. exact Hfind.
Qed.

(** C9, on a store with two credentials for alice: the first one is
    returned. *)
Lemma C9_get_or_create_example :
  exists found,
    async_get_or_create_credentials create stored
      {["username" := "alice"]} = (Ret found, []) /\
    found = credentials_of "c2" "alice" /\
    async_get_or_create_credentials create stored (login "alice" "x")
    = (Ret found, []).
Proof.
  destruct (C9_get_or_create_is_idempotent create stored
              {["username" := "alice"]} "alice" (credentials_of "c3" "alice"))
    as (found & Hrun & _ & _ & _ & _ & Hsame & _).
  - reflexivity.
  - repeat constructor; eexists; reflexivity.
  - do 2 right. left.
  - reflexivity.
  - exists found. split; [exact Hrun |]. split.
    + vm_compute in Hrun. injection Hrun as <-. reflexivity.
    + apply Hsame. reflexivity.
Defined.

(** C10.  When the run has logged the groups of the user found (so an
    entry was found under a non-empty allow-list) and none of them
    passes the membership test, the validation raises
    [InvalidAuthError] with the message naming the user, whatever the
    directory would answer to a re-bind: the run contains no re-bind,
    and the step shows the form again with [invalid_auth]. *)
Theorem C10_group_denial_comes_first (ldap3 : Ldap3) (config : Config)
    (username password uid : string) (user_groups : list string) :
  EvLog INFO (LogMemberOf uid (Some user_groups))
    ∈ trace (async_validate_login ldap3 config username password) ->
  is_member (conf_allowed_group_dns config) user_groups = false ->
  conf_allowed_group_dns config <> [] /\
  (exists e,
     outcome (async_validate_login ldap3 config username password)
     = Raise e /\
     GroupMembershipDenied uid e /\
     e <> InvalidAuthError (Some invalid_credentials_message) /\
     e <> InvalidAuthError None) /\
  Forall (fun ev => is_rebind ev = false)
    (trace (async_validate_login ldap3 config username password)) /\
  forall user_input : gmap string string,
    user_input !! "username" = Some username ->
    user_input !! "password" = Some password ->
    outcome (async_step_init ldap3 config (Some user_input))
    = Ret (async_show_form "init"
             [("username", py_str); ("password", py_str)]
             {["base" := "invalid_auth"]}).
Proof.
  intros Hin Hdenied.
  assert (H : conf_allowed_group_dns config <> [] /\
              outcome (async_validate_login ldap3 config username password)
              = Raise (InvalidAuthError (Some (not_a_member_message uid))) /\
              Forall (fun ev => is_rebind ev = false)
                (trace (async_validate_login ldap3 config
                          username password))).
  { revert Hin Hdenied. run_login; intros Hin Hdenied; try not_in_trace Hin;
      repeat (apply elem_of_cons in Hin as [Hin | Hin];
              [try discriminate Hin |]);
      try (apply elem_of_nil in Hin; contradiction);
      simplify_eq;
      try match goal with
          | Hm : negb ?m = false, Hd : ?m = false |- _ =>
              rewrite Hd in Hm; discriminate Hm
          end;
      (split; [discriminate |]); (split; [reflexivity |]);
      repeat constructor. }
  destruct H as (Hne & Hout & Hno).
  split; [exact Hne |]. split; [| split; [exact Hno |]].
  - eexists. split; [exact Hout |]. split; [reflexivity |].
    split; discriminate.
  - intros user_input Hu Hp.
    rewrite (step_init_outcome _ _ _ _ _ Hu Hp), Hout. reflexivity.
Qed.

(** C10, on a directory whose first person is bob: alice binds, the
    entry found is bob, who is not in the staff group and whose re-bind
    with the password of alice would be rejected. *)
Lemma C10_group_denial_example :
  let config := with_allowed_group_dns staff_only user_config in
  let run := async_validate_login (directory [bob; alice]) config
               "alice" "wonderland" in
  (forall conn,
     ldap3_rebind (directory [bob; alice]) conn (entry_dn bob) "wonderland"
     = Answer false) /\
  outcome run
  = Raise (InvalidAuthError
             (Some "User bob is not a member of any of the required groups"))
  /\
  Forall (fun ev => is_rebind ev = false) (trace run).
Proof.
  intros config run. split; [reflexivity |].
  destruct (C10_group_denial_comes_first (directory [bob; alice]) config
              "alice" "wonderland" "bob"
              (characters "cn=guests,dc=example,dc=com"))
    as (_ & (e & He & Hg & _) & Hno & _).
  - vm_compute. do 6 right. left.
  - reflexivity.
  - split; [| exact Hno]. subst run. rewrite He, Hg. reflexivity.
Defined.

(** * Further properties *)

(** ** More tactics for traces *)

(** Case analysis on an event that is in a trace given in full. *)
Ltac in_trace H :=
  repeat (apply elem_of_cons in H as [H | H]; [try discriminate H |]);
  try (apply elem_of_nil in H; contradiction).

(** An event that is in a trace given in full. *)
Ltac find_event := solve [repeat first [left | right]].

Ltac unfold_run :=
  unfold bind_credentials, the_search, username_attr, all_operations,
    operations in *.

(** X1.  When the configuration binds with the service account and
    lacks its user name or its password, and the server object was
    built, the validation raises [KeyError] for the missing key before
    any connection is opened and any record is logged, and the step of
    the login flow lets this [KeyError] through instead of showing the
    form. *)
Theorem missing_service_credentials (ldap3 : Ldap3) (config : Config)
    (username password : string) :
  conf_bind_as_user config = true ->
  ldap3_Server ldap3 (the_server config) = Answer tt ->
  (conf_bind_username config = None ->
   async_validate_login ldap3 config username password
   = (Raise (KeyError "bind_username"), [])) /\
  (is_Some (conf_bind_username config) ->
   conf_bind_password config = None ->
   async_validate_login ldap3 config username password
   = (Raise (KeyError "bind_password"), [])) /\
  (conf_bind_username config = None \/ conf_bind_password config = None ->
   forall user_input : gmap string string,
     user_input !! "username" = Some username ->
     user_input !! "password" = Some password ->
     exists key,
       async_step_init ldap3 config (Some user_input)
       = (Raise (KeyError key), [])).
Proof.
  intros Hflag Hserver.
  assert (Hu : conf_bind_username config = None ->
               async_validate_login ldap3 config username password
               = (Raise (KeyError "bind_username"), [])).
  { intros Hu. unfold async_validate_login, validate_login_body, new_Server.
    rewrite Hserver, Hflag, Hu. reflexivity. }
  assert (Hp : is_Some (conf_bind_username config) ->
               conf_bind_password config = None ->
               async_validate_login ldap3 config username password
               = (Raise (KeyError "bind_password"), [])).
  { intros [u Hsome] Hp.
    unfold async_validate_login, validate_login_body, new_Server.
    rewrite Hserver, Hflag, Hsome, Hp. reflexivity. }
  split; [exact Hu |]. split; [exact Hp |].
  intros Hmissing user_input Hname Hpass.
  assert (Hrun : exists key,
             async_validate_login ldap3 config username password
             = (Raise (KeyError key), [])).
  { destruct (conf_bind_username config) as [u |] eqn:Hsome.
    - destruct Hmissing as [Hn | Hn]; [discriminate Hn |].
      eexists. apply Hp; [eexists; reflexivity | exact Hn].
    - eexists. apply Hu. reflexivity. }
  destruct Hrun as [key Hrun]. exists key.
  unfold async_step_init, dict_get. rewrite Hname, Hpass.
  unfold mbind, mret, M_bind, M_ret. simpl. rewrite Hrun. reflexivity.
Qed.

(** X1, on the example directory. *)
Lemma missing_service_credentials_example :
  async_validate_login (directory [alice]) no_service_account
    "alice" "wonderland" = (Raise (KeyError "bind_username"), []) /\
  async_validate_login (directory [alice]) no_service_password
    "alice" "wonderland" = (Raise (KeyError "bind_password"), []) /\
  exists key,
    async_step_init (directory [alice]) no_service_account
      (Some (login "alice" "wonderland")) = (Raise (KeyError key), []).
Proof.
  split; [| split].
  - apply (missing_service_credentials (directory [alice])
             no_service_account "alice" "wonderland"); reflexivity.
  - apply (missing_service_credentials (directory [alice])
             no_service_password "alice" "wonderland");
      [reflexivity | reflexivity | eexists; reflexivity | reflexivity].
  - apply (missing_service_credentials (directory [alice])
             no_service_account "alice" "wonderland");
      [reflexivity | reflexivity | left; reflexivity | reflexivity
      | reflexivity].
Defined.

(** X2.  When the configuration does not bind with the service
    account, the two optional keys are never read: whatever they hold,
    the run of the validation is the same. *)
Theorem user_bind_ignores_service_credentials (ldap3 : Ldap3)
    (config : Config) (u p : option string) (username password : string) :
  conf_bind_as_user config = false ->
  async_validate_login ldap3 (with_bind_credentials u p config)
    username password
  = async_validate_login ldap3 config username password.
Proof.
  intros Hflag.
  unfold async_validate_login, validate_login_body, check_group_membership,
    the_server.
  simpl. rewrite Hflag. reflexivity.
Qed.

(** X2, on the example directory. *)
Lemma user_bind_ignores_service_credentials_example :
  async_validate_login (directory [alice])
    (with_bind_credentials None (Some "x") user_config) "alice" "wonderland"
  = async_validate_login (directory [alice]) user_config
      "alice" "wonderland".
Proof.
  apply (user_bind_ignores_service_credentials (directory [alice])
           user_config None (Some "x") "alice" "wonderland").
  reflexivity.
Defined.

(** X3.  What the validation can raise.  It never raises
    [LDAPBindError], which is always turned into [InvalidAuthError]; a
    [KeyError] is one of the two optional keys, missing under the
    service-account bind; an [InvalidAuthError] with a message is either
    the rejected re-bind, only when the service account is not used, or
    the group denial of a user whose entry and groups were logged; a
    [TypeError] comes from an entry without groups under a non-empty
    allow-list, after the groups were logged; an [AttributeError] comes
    from the upgrade under STARTTLS. *)
Theorem validate_login_outcomes (ldap3 : Ldap3) (config : Config)
    (username password : string) (e : Exn) :
  outcome (async_validate_login ldap3 config username password) = Raise e ->
  e <> Ldap3Exn LDAPBindError /\
  (forall key,
     e = KeyError key ->
     conf_bind_as_user config = true /\
     (key = "bind_username" /\ conf_bind_username config = None \/
      key = "bind_password" /\ conf_bind_password config = None)) /\
  (forall msg,
     e = InvalidAuthError (Some msg) ->
     msg = invalid_credentials_message /\ conf_bind_as_user config = false \/
     exists display_name uid user_groups,
       msg = not_a_member_message uid /\
       EvLog INFO (LogFoundUser display_name uid)
         ∈ trace (async_validate_login ldap3 config username password) /\
       EvLog INFO (LogMemberOf uid (Some user_groups))
         ∈ trace (async_validate_login ldap3 config username password)) /\
  (e = TypeError ->
   conf_allowed_group_dns config <> [] /\
   exists uid,
     EvLog INFO (LogMemberOf uid None)
       ∈ trace (async_validate_login ldap3 config username password)) /\
  (e = AttributeError ->
   conf_encryption config = CONF_ENCRYPTION_STARTTLS /\
   EvStartTls
     ∈ trace (async_validate_login ldap3 config username password)).
Proof.
  run_login; intros He; simplify_eq;
    (split; [discriminate |]);
    (split; [intros key Hk; simplify_eq; auto |]);
    (split;
     [ intros msg Hm; simplify_eq;
       first [ left; split; reflexivity
             | right; do 3 eexists; split; [reflexivity |];
               split; find_event ] |]);
    (split;
     [ intros Ht; simplify_eq;
       (split; [discriminate | eexists; find_event])
     | intros Ha; simplify_eq;
       (split;
        [ match goal with
          | H : bool_decide _ = true |- _ =>
              apply bool_decide_eq_true in H; exact H
          end
        | find_event ]) ]).
Qed.

(** X3, on the example directory: dave, who has no group. *)
Lemma validate_login_outcomes_example :
  conf_allowed_group_dns (with_allowed_group_dns staff_only user_config)
  <> [] /\
  exists uid,
    EvLog INFO (LogMemberOf uid None)
      ∈ trace (async_validate_login (directory [dave])
                 (with_allowed_group_dns staff_only user_config)
                 "dave" "snark").
Proof.
  apply (validate_login_outcomes (directory [dave])
           (with_allowed_group_dns staff_only user_config)
           "dave" "snark" TypeError); reflexivity.
Defined.

(** X4.  The calls into [ldap3] of a run are, in this order, a bind,
    an upgrade under STARTTLS, a search, and a re-bind when the service
    account is not used: every run makes an initial part of this
    sequence, and a run that returns normally makes all of it. *)
Theorem operations_in_order (ldap3 : Ldap3) (config : Config)
    (username password : string) :
  operations (trace (async_validate_login ldap3 config username password))
    `prefix_of` all_operations config /\
  (outcome (async_validate_login ldap3 config username password) = Ret tt ->
   operations (trace (async_validate_login ldap3 config username password))
   = all_operations config).
Proof.
  unfold_run. split.
  - run_login; solve [eexists; reflexivity | apply prefix_nil].
  - run_login; intros H; solve [discriminate H | reflexivity].
Qed.

(** X4, on the example directory. *)
Lemma operations_in_order_example :
  operations (trace (async_validate_login (directory [alice]) user_config
                       "alice" "wonderland"))
  = all_operations user_config.
Proof.
  apply (proj2 (operations_in_order (directory [alice]) user_config
                  "alice" "wonderland")).
  reflexivity.
Defined.



(** X6.  A re-bind occurs only when the service account is not used;
    it carries the password of the request, and its user is the
    distinguished name of the first entry the search returned, not a name
    built from the request. *)
Theorem arguments_of_rebind (ldap3 : Ldap3) (config : Config)
    (username password dn pw : string) :
  EvRebind dn pw
    ∈ trace (async_validate_login ldap3 config username password) ->
  conf_bind_as_user config = false /\
  pw = password /\
  exists conn entry others,
    ldap3_search ldap3 conn (the_search config) = Answer (entry :: others) /\
    dn = entry_dn entry.
Proof.
  unfold_run. run_login; intros Hin; in_trace Hin; simplify_eq;
    (split; [reflexivity |]); (split; [reflexivity |]);
    do 3 eexists; (split; [eassumption | reflexivity]).
Qed.

(** X6, on the example directory. *)
Lemma arguments_of_rebind_example :
  conf_bind_as_user user_config = false /\
  "wonderland" = "wonderland" /\
  exists conn entry others,
    ldap3_search (directory [alice]) conn (the_search user_config)
    = Answer (entry :: others) /\
    alice_dn = entry_dn entry.
Proof.
  apply (arguments_of_rebind (directory [alice]) user_config
           "alice" "wonderland" alice_dn "wonderland").
  vm_compute. find_event.
Defined.

(** X7.  Once a run reaches the re-bind, its answer decides the
    outcome: [True] accepts the login, [False] raises [InvalidAuthError]
    with the fixed message, [LDAPBindError] raises [InvalidAuthError]
    without message, and any other exception of [ldap3] is passed on. *)
Theorem rebind_decides (ldap3 : Ldap3) (config : Config)
    (username password dn pw : string) :
  EvRebind dn pw
    ∈ trace (async_validate_login ldap3 config username password) ->
  exists conn,
    outcome (async_validate_login ldap3 config username password) =
    match ldap3_rebind ldap3 conn dn pw with
    | Answer true => Ret tt
    | Answer false =>
        Raise (InvalidAuthError (Some "Invalid LDAP credentials provided"))
    | Fails LDAPBindError => Raise (InvalidAuthError None)
    | Fails e => Raise (Ldap3Exn e)
    end.
Proof.
  run_login; intros Hin; in_trace Hin; simplify_eq;
    match goal with
    | H : ldap3_rebind _ ?conn _ _ = ?r |- _ =>
        exists conn; rewrite H;
        first [ reflexivity
              | match r with
                | Answer ?a =>
                    destruct a; simpl in *; solve [reflexivity | discriminate]
                end ]
    end.
Qed.

(** X7, on the example directory. *)
Lemma rebind_decides_example :
  exists conn,
    outcome (async_validate_login (directory [bob; alice]) user_config
               "alice" "wonderland") =
    match ldap3_rebind (directory [bob; alice]) conn (entry_dn bob)
            "wonderland" with
    | Answer true => Ret tt
    | Answer false =>
        Raise (InvalidAuthError (Some "Invalid LDAP credentials provided"))
    | Fails LDAPBindError => Raise (InvalidAuthError None)
    | Fails e => Raise (Ldap3Exn e)
    end.
Proof.
  apply (rebind_decides (directory [bob; alice]) user_config
           "alice" "wonderland" (entry_dn bob) "wonderland").
  vm_compute. find_event.
Defined.

(** X8.  When the opening bind fails, under either way of binding,
    nothing else is done on the connection; [LDAPBindError] becomes
    [InvalidAuthError], shown by the step as [invalid_auth] (also when it
    is the service account that was rejected), and any other exception
    leaves the validation and the step unchanged. *)
Theorem bind_failure (ldap3 : Ldap3) (config : Config)
    (username password : string) server user pw auth rest e :
  trace (async_validate_login ldap3 config username password)
  = EvBind server user pw auth :: rest ->
  ldap3_Connection ldap3 server user pw auth = Fails e ->
  outcome (async_validate_login ldap3 config username password)
  = Raise (if decide (e = LDAPBindError) then InvalidAuthError None
           else Ldap3Exn e) /\
  operations (trace (async_validate_login ldap3 config username password))
  = [OpBind] /\
  forall user_input : gmap string string,
    user_input !! "username" = Some username ->
    user_input !! "password" = Some password ->
    outcome (async_step_init ldap3 config (Some user_input)) =
    if decide (e = LDAPBindError)
    then Ret (init_form {["base" := "invalid_auth"]})
    else Raise (Ldap3Exn e).
Proof.
  intros Ht Hf.
  assert (H : outcome (async_validate_login ldap3 config username password)
              = Raise (if decide (e = LDAPBindError) then InvalidAuthError None
                       else Ldap3Exn e) /\
              operations (trace (async_validate_login ldap3 config
                                   username password)) = [OpBind]).
  { revert Ht Hf. unfold_run. run_login; intros Ht Hf; simplify_eq;
      try congruence;
      match goal with
      | H1 : ?x = Fails _, H2 : ?x = Fails _ |- _ =>
          rewrite H1 in H2; simplify_eq
      end; split; reflexivity. }
  destruct H as [Hout Hops]. split; [exact Hout |]. split; [exact Hops |].
  intros user_input Hu Hp.
  rewrite (step_init_outcome _ _ _ _ _ Hu Hp), Hout.
  destruct (decide (e = LDAPBindError)); [reflexivity |].
  reflexivity.
Qed.

(** X8, on the example directory. *)
Lemma bind_failure_example :
  let run := async_validate_login (directory [alice]) wrong_service_password
               "alice" "wonderland" in
  outcome run = Raise (InvalidAuthError None) /\
  operations (trace run) = [OpBind] /\
  outcome (async_step_init (directory [alice]) wrong_service_password
             (Some (login "alice" "wonderland")))
  = Ret (init_form {["base" := "invalid_auth"]}).
Proof.
  intros run.
  destruct (bind_failure (directory [alice]) wrong_service_password
              "alice" "wonderland"
              (the_server wrong_service_password)
              (bind_user wrong_service_password "svc") "oops" None
              (tail (trace run)) LDAPBindError eq_refl eq_refl)
    as (Hout & Hops & Hstep).
  split; [exact Hout |]. split; [exact Hops |].
  apply (Hstep (login "alice" "wonderland")); reflexivity.
Defined.

(** X9.  Under STARTTLS the bind goes to a server without SSL, before
    any encryption; and when the connection has no method [starttls]
    (the method of [ldap3] is [start_tls]), a login whose bind was taken
    ends in [AttributeError] at the upgrade: nothing is searched, and the
    step lets the exception through. *)
Theorem starttls_without_method (ldap3 : Ldap3) (config : Config)
    (username password : string) server user pw auth rest :
  conf_encryption config = CONF_ENCRYPTION_STARTTLS ->
  (forall conn, ldap3_starttls ldap3 conn = None) ->
  trace (async_validate_login ldap3 config username password)
  = EvBind server user pw auth :: rest ->
  ldap3_Connection ldap3 server user pw auth = Answer tt ->
  server_use_ssl server = false /\
  outcome (async_validate_login ldap3 config username password)
  = Raise AttributeError /\
  rest = [EvStartTls] /\
  forall user_input : gmap string string,
    user_input !! "username" = Some username ->
    user_input !! "password" = Some password ->
    outcome (async_step_init ldap3 config (Some user_input))
    = Raise AttributeError.
Proof.
  intros Henc Hnone Ht Hbind.
  assert (H : server_use_ssl server = false /\
              outcome (async_validate_login ldap3 config username password)
              = Raise AttributeError /\ rest = [EvStartTls]).
  { revert Ht Hbind. run_login; intros Ht Hbind;
      simplify_eq; try congruence;
      try match goal with
          | H : ldap3_starttls _ ?c = Some _ |- _ =>
              rewrite (Hnone c) in H; discriminate H
          end;
      repeat split; unfold the_server; simpl; rewrite Henc; reflexivity. }
  destruct H as (Hssl & Hout & Hrest).
  split; [exact Hssl |]. split; [exact Hout |]. split; [exact Hrest |].
  intros user_input Hu Hp.
  rewrite (step_init_outcome _ _ _ _ _ Hu Hp), Hout. reflexivity.
Qed.

(** X9, on the example directory behind a client without [starttls]. *)
Lemma starttls_without_method_example :
  let run :=
    async_validate_login (without_starttls [alice]) starttls_config
      "alice" "wonderland" in
  server_use_ssl (the_server starttls_config) = false /\
  outcome run = Raise AttributeError /\
  tail (trace run) = [EvStartTls] /\
  outcome (async_step_init (without_starttls [alice]) starttls_config
             (Some (login "alice" "wonderland")))
  = Raise AttributeError.
Proof.
  intros run.
  destruct (starttls_without_method (without_starttls [alice])
              starttls_config "alice" "wonderland"
              (the_server starttls_config)
              (bind_user starttls_config "alice") "wonderland" None
              (tail (trace run)) eq_refl (fun _ => eq_refl) eq_refl eq_refl)
    as (Hssl & Hout & Hrest & Hstep).
  split; [exact Hssl |]. split; [exact Hout |]. split; [exact Hrest |].
  apply (Hstep (login "alice" "wonderland")); reflexivity.
Defined.

(** X10.  A login is accepted only if the server object was built, the
    directory took the bind under the chosen credentials at the
    configured host and port, the search returned an entry, whose
    account name and display name were logged; if moreover the
    allow-list is not empty, the groups of the entry could be iterated
    and, for ASCII names, passed the membership test; and if the service
    account is not used, the re-bind of the entry with the password of
    the request was answered [True]. *)
Theorem accepted_login_was_verified (ldap3 : Ldap3) (config : Config)
    (username password : string) :
  outcome (async_validate_login ldap3 config username password) = Ret tt ->
  exists server name pw conn entry others,
    server_host server = conf_server config /\
    server_port server = conf_port config /\
    ldap3_Server ldap3 server = Answer tt /\
    bind_credentials config username password = Some (name, pw) /\
    ldap3_Connection ldap3 server (bind_user config name) pw
      (bind_authentication config) = Answer tt /\
    ldap3_search ldap3 conn (the_search config) = Answer (entry :: others) /\
    EvLog INFO (LogFoundUser (entry_value entry "displayName")
                  (entry_value entry (username_attr config)))
      ∈ trace (async_validate_login ldap3 config username password) /\
    (conf_allowed_group_dns config <> [] ->
     exists user_groups,
       entry_memberOf entry = Some user_groups /\
       (Forall (fun name => ascii_text name = true)
          (conf_allowed_group_dns config) ->
        Forall (fun name => ascii_text name = true) user_groups ->
        is_member (conf_allowed_group_dns config) user_groups = true)) /\
    (conf_bind_as_user config = false ->
     exists conn',
       ldap3_rebind ldap3 conn' (entry_dn entry) password = Answer true).
Proof.
  unfold_run. run_login; intros Hok; try discriminate Hok;
    exists (the_server config); do 5 eexists;
    (split; [reflexivity |]); (split; [reflexivity |]);
    (split; [eassumption |]); (split; [reflexivity |]);
    (split; [eassumption |]); (split; [eassumption |]);
    (split; [find_event |]);
    (split;
     [ intros Hne; first [ congruence
                         | eexists; split; [eassumption |]; intros _ _;
                           match goal with
                           | H : negb ?m = false |- ?m = true =>
                               destruct m; [reflexivity | discriminate H]
                           end ]
     | intros Hf; first [ discriminate Hf
                        | eexists;
                          match goal with
                          | H : ldap3_rebind _ _ _ _ = Answer ?a,
                            Hn : negb ?a = false |- _ =>
                              destruct a; [exact H | discriminate Hn]
                          end ] ]).
Qed.

(** X10, on the example directory: carol, who is in the staff group,
    under the allow-list of the staff group and without the service
    account. *)
Lemma accepted_login_was_verified_example :
  let config := with_allowed_group_dns staff_only user_config in
  EvLog INFO (LogFoundUser "Carol" "carol")
    ∈ trace (async_validate_login (directory [carol]) config
               "carol" "looking-glass") /\
  is_member (conf_allowed_group_dns config)
    ["cn=users,dc=example,dc=com"; "cn=staff,dc=example,dc=com"] = true /\
  exists conn',
    ldap3_rebind (directory [carol]) conn' (entry_dn carol) "looking-glass"
    = Answer true.
Proof.
  intros config.
  destruct (accepted_login_was_verified (directory [carol]) config
              "carol" "looking-glass" eq_refl)
    as (server & name & pw & conn & entry & others
        & _ & _ & _ & _ & _ & Hsearch & Hlog & Hgroups & Hrebind).
  injection Hsearch as <- <-.
  split; [exact Hlog |]. split.
  - destruct (Hgroups ltac:(discriminate)) as (user_groups & Hsome & Hm).
    injection Hsome as <-. apply Hm; repeat constructor.
  - apply Hrebind. reflexivity.
Defined.

(** X11.  Outside of the STARTTLS mode, when the server object is
    built, the directory takes the bind, the search returns an entry
    whose groups pass the allow-list when there is one, and (when the
    service account is not used) the directory takes the re-bind of that
    entry with the password of the request, the validation returns
    normally with the user found in the log, and the step finishes with
    the input without its password. *)
Theorem login_is_accepted (ldap3 : Ldap3) (config : Config)
    (username password name pw : string) (entry : Entry)
    (others : list Entry) :
  ldap3_Server ldap3 (the_server config) = Answer tt ->
  bind_credentials config username password = Some (name, pw) ->
  ldap3_Connection ldap3 (the_server config) (bind_user config name) pw
    (bind_authentication config) = Answer tt ->
  conf_encryption config <> CONF_ENCRYPTION_STARTTLS ->
  (forall conn,
     ldap3_search ldap3 conn (the_search config) = Answer (entry :: others)) ->
  (conf_allowed_group_dns config = [] \/
   exists user_groups,
     entry_memberOf entry = Some user_groups /\
     is_member (conf_allowed_group_dns config) user_groups = true) ->
  (conf_bind_as_user config = true \/
   forall conn,
     ldap3_rebind ldap3 conn (entry_dn entry) password = Answer true) ->
  outcome (async_validate_login ldap3 config username password) = Ret tt /\
  EvLog INFO (LogFoundUser (entry_value entry "displayName")
                (entry_value entry (username_attr config)))
    ∈ trace (async_validate_login ldap3 config username password) /\
  forall user_input : gmap string string,
    user_input !! "username" = Some username ->
    user_input !! "password" = Some password ->
    outcome (async_step_init ldap3 config (Some user_input))
    = Ret (async_finish (delete "password" user_input)).
Proof.
  intros Hserver Hcreds Hbind Henc Hsearch Hgroups Hrebind.
  assert (H : outcome (async_validate_login ldap3 config username password)
              = Ret tt /\
              EvLog INFO (LogFoundUser (entry_value entry "displayName")
                            (entry_value entry (username_attr config)))
                ∈ trace (async_validate_login ldap3 config
                           username password)).
  { revert Hserver Hcreds Hbind Henc Hsearch Hgroups Hrebind. unfold_run.
    run_login;
      intros Hserver Hcreds Hbind Henc Hsearch Hgroups Hrebind;
      simplify_eq; try congruence;
      try match goal with
          | H : bool_decide (_ = CONF_ENCRYPTION_STARTTLS) = true |- _ =>
              apply bool_decide_eq_true in H; contradiction
          end;
      repeat match goal with
             | H : ldap3_search _ ?c _ = _ |- _ =>
                 rewrite (Hsearch c) in H; simplify_eq
             end;
      try congruence;
      try (destruct Hgroups as [Hg | (gs & Hg & Hm)]; simplify_eq;
           try congruence;
           match goal with
           | H : negb ?m = true, H' : ?m = true |- _ =>
               rewrite H' in H; discriminate H
           end);
      try (destruct Hrebind as [Hr | Hr]; [discriminate Hr |];
           match goal with
           | H : ldap3_rebind _ ?c _ _ = _ |- _ =>
               rewrite (Hr c) in H; simplify_eq
           end; try discriminate);
      (split; [reflexivity | find_event]). }
  destruct H as [Hout Hlog]. split; [exact Hout |]. split; [exact Hlog |].
  intros user_input Hu Hp.
  rewrite (step_init_outcome _ _ _ _ _ Hu Hp), Hout. reflexivity.
Qed.

(** X11, on the example directory: carol, who is in the staff group,
    under the allow-list of the staff group and without the service
    account, so that the run has the group test and the re-bind. *)
Lemma login_is_accepted_example :
  let config := with_allowed_group_dns staff_only user_config in
  let run :=
    async_validate_login (directory [carol]) config
      "carol" "looking-glass" in
  conf_allowed_group_dns config <> [] /\
  operations (trace run) = [OpBind; OpSearch; OpRebind] /\
  outcome run = Ret tt /\
  EvLog INFO (LogFoundUser "Carol" "carol") ∈ trace run /\
  forall user_input : gmap string string,
    user_input !! "username" = Some "carol" ->
    user_input !! "password" = Some "looking-glass" ->
    outcome (async_step_init (directory [carol]) config (Some user_input))
    = Ret (async_finish (delete "password" user_input)).
Proof.
  intros config run.
  split; [discriminate |]. split; [reflexivity |].
  apply (login_is_accepted (directory [carol]) config
           "carol" "looking-glass" "carol" "looking-glass" carol []).
  - reflexivity.
  - reflexivity.
  - reflexivity.
  - discriminate.
  - intros conn. reflexivity.
  - right. eexists. split; reflexivity.
  - right. intros conn. reflexivity.
Defined.


(** ** More on the login flow *)

(** The step adds no event to the run of the validation. *)
Lemma step_init_trace (ldap3 : Ldap3) (config : Config)
    (user_input : gmap string string) (username password : string) :
  user_input !! "username" = Some username ->
  user_input !! "password" = Some password ->
  trace (async_step_init ldap3 config (Some user_input))
  = trace (async_validate_login ldap3 config username password).
Proof.
  intros Hu Hp. unfold async_step_init, dict_get. rewrite Hu, Hp.
  unfold try_except, step_init_handler, trace, mbind, mret, M_bind, M_ret.
  simpl.
  destruct (async_validate_login ldap3 config username password)
    as [[[] | e] t]; simpl.
  - destruct (bool_decide _); simpl; rewrite !app_nil_r; reflexivity.
  - destruct e; simpl; try reflexivity;
      destruct (bool_decide _); simpl; rewrite !app_nil_r; reflexivity.
Qed.

(** X12.  With both fields in the input, the step adds no event to
    the run of the validation and ends in one of these ways: it finishes
    with the input without the password, exactly when the validation
    returned; it shows the form [init] with the same two fields and the
    error [invalid_auth] for an [InvalidAuthError], or [error] for an
    [LdapError]; or it raises what the validation raised, which is then
    neither an [InvalidAuthError] nor an [LdapError]. *)
Theorem step_init_results (ldap3 : Ldap3) (config : Config)
    (user_input : gmap string string) (username password : string) :
  user_input !! "username" = Some username ->
  user_input !! "password" = Some password ->
  trace (async_step_init ldap3 config (Some user_input))
  = trace (async_validate_login ldap3 config username password) /\
  match outcome (async_step_init ldap3 config (Some user_input)) with
  | Ret (async_finish payload) =>
      payload = delete "password" user_input /\
      outcome (async_validate_login ldap3 config username password) = Ret tt
  | Ret (async_show_form step_id data_schema errors) =>
      step_id = "init" /\
      data_schema = [("username", py_str); ("password", py_str)] /\
      (errors = {["base" := "invalid_auth"]} /\
       (exists msg,
          outcome (async_validate_login ldap3 config username password)
          = Raise (InvalidAuthError msg)) \/
       errors = {["base" := "error"]} /\
       outcome (async_validate_login ldap3 config username password)
       = Raise LdapError)
  | Raise e =>
      outcome (async_validate_login ldap3 config username password)
      = Raise e /\
      (forall msg, e <> InvalidAuthError msg) /\ e <> LdapError
  end.
Proof.
  intros Hu Hp. split; [apply step_init_trace; assumption |].
  rewrite (step_init_outcome _ _ _ _ _ Hu Hp).
  destruct (outcome (async_validate_login ldap3 config username password))
    as [[] | e]; [split; reflexivity |].
  destruct e; simpl; eauto 8; repeat split; discriminate.
Qed.

(** X12, on the example directory. *)
Lemma step_init_results_example :
  trace (async_step_init (directory [alice]) user_config
           (Some (login "alice" "wrong")))
  = trace (async_validate_login (directory [alice]) user_config
             "alice" "wrong") /\
  outcome (async_step_init (directory [alice]) user_config
             (Some (login "alice" "wrong")))
  = Ret (init_form {["base" := "invalid_auth"]}).
Proof.
  destruct (step_init_results (directory [alice]) user_config
              (login "alice" "wrong") "alice" "wrong" eq_refl eq_refl)
    as [Htrace _].
  split; [exact Htrace | reflexivity].
Defined.

(** X13.  An input without [username], or with it and without
    [password], makes the step raise [KeyError] for that field before the
    validation is called: the trace is empty. *)
Theorem step_init_missing_field (ldap3 : Ldap3) (config : Config)
    (user_input : gmap string string) :
  (user_input !! "username" = None ->
   async_step_init ldap3 config (Some user_input)
   = (Raise (KeyError "username"), [])) /\
  (is_Some (user_input !! "username") ->
   user_input !! "password" = None ->
   async_step_init ldap3 config (Some user_input)
   = (Raise (KeyError "password"), [])).
Proof.
  split.
  - intros Hu. unfold async_step_init, dict_get. rewrite Hu. reflexivity.
  - intros [u Hu] Hp. unfold async_step_init, dict_get. rewrite Hu, Hp.
    reflexivity.
Qed.

(** X13, on the example directory. *)
Lemma step_init_missing_field_example :
  async_step_init (directory [alice]) user_config
    (Some {["password" := "wonderland"]})
  = (Raise (KeyError "username"), []) /\
  async_step_init (directory [alice]) user_config
    (Some {["username" := "alice"]})
  = (Raise (KeyError "password"), []).
Proof.
  split.
  - apply (step_init_missing_field (directory [alice]) user_config
             {["password" := "wonderland"]}).
    reflexivity.
  - apply (step_init_missing_field (directory [alice]) user_config
             {["username" := "alice"]}).
    + eexists. reflexivity.
    + reflexivity.
Defined.

(** X14.  For an accepted login, an input with exactly the two
    fields finishes with the payload that holds the user name alone; in
    general every field of the input other than [password] is passed on
    unchanged. *)
Theorem step_init_keeps_only_username (ldap3 : Ldap3) (config : Config)
    (username password : string) :
  outcome (async_validate_login ldap3 config username password) = Ret tt ->
  outcome (async_step_init ldap3 config
             (Some {["username" := username; "password" := password]}))
  = Ret (async_finish {["username" := username]}) /\
  forall (user_input : gmap string string) (key : string),
    user_input !! "username" = Some username ->
    user_input !! "password" = Some password ->
    exists payload : gmap string string,
      outcome (async_step_init ldap3 config (Some user_input))
      = Ret (async_finish payload) /\
      (key <> "password" -> payload !! key = user_input !! key).
Proof.
  intros Hok. split.
  - assert (Hu : ({["username" := username; "password" := password]}
                    : gmap string string) !! "username" = Some username).
    { apply lookup_insert_eq. }
    assert (Hp : ({["username" := username; "password" := password]}
                    : gmap string string) !! "password" = Some password).
    { rewrite lookup_insert_ne by discriminate. apply lookup_singleton_eq. }
    rewrite (step_init_outcome _ _ _ _ _ Hu Hp), Hok. reflexivity.
  - intros user_input key Hu Hp. eexists.
    rewrite (step_init_outcome _ _ _ _ _ Hu Hp), Hok.
    split; [reflexivity |]. intros Hne.
    apply lookup_delete_ne. congruence.
Qed.

(** X14, on the example directory. *)
Lemma step_init_keeps_only_username_example :
  outcome (async_step_init (directory [alice]) user_config
             (Some {["username" := "alice"; "password" := "wonderland"]}))
  = Ret (async_finish {["username" := "alice"]}) /\
  exists payload : gmap string string,
    outcome (async_step_init (directory [alice]) user_config
               (Some (<["remember" := "yes"]> (login "alice" "wonderland"))))
    = Ret (async_finish payload) /\
    payload !! "remember" = Some "yes".
Proof.
  destruct (step_init_keeps_only_username (directory [alice]) user_config
              "alice" "wonderland" eq_refl) as [Hexact Hkeys].
  split; [exact Hexact |].
  destruct (Hkeys (<["remember" := "yes"]> (login "alice" "wonderland"))
              "remember") as (payload & Hout & Hkey);
    [vm_compute; reflexivity | vm_compute; reflexivity |].
  exists payload. split; [exact Hout |].
  rewrite Hkey by discriminate. vm_compute. reflexivity.
Defined.

(** ** More on the credentials *)

(** What the loop over the stored credentials returns, for any store. *)
Lemma find_credentials_result (username : string)
    (credentials : list Credentials) :
  match find_credentials username credentials with
  | (Ret (Some found), t) =>
      t = [] /\
      exists pre post,
        credentials = pre ++ found :: post /\
        cred_data found !! "username" = Some username /\
        Forall (fun c => exists stored,
                  cred_data c !! "username" = Some stored /\
                  stored <> username) pre
  | (Ret None, t) =>
      t = [] /\
      Forall (fun c => exists stored,
                cred_data c !! "username" = Some stored /\
                stored <> username) credentials
  | (Raise e, t) =>
      t = [] /\ e = KeyError "username" /\
      exists pre c post,
        credentials = pre ++ c :: post /\
        cred_data c !! "username" = None /\
        Forall (fun c => exists stored,
                  cred_data c !! "username" = Some stored /\
                  stored <> username) pre
  end.
Proof.
  induction credentials as [| c rest IH]; simpl.
  - split; [reflexivity | constructor].
  - unfold dict_get. destruct (cred_data c !! "username") as [stored |] eqn:Hc.
    + unfold mbind, mret, M_bind, M_ret. simpl. case_bool_decide as Heq.
      * subst stored. split; [reflexivity |].
        exists [], rest. repeat split; [exact Hc | constructor].
      * destruct (find_credentials username rest) as [[[found |] | e] t].
        -- destruct IH as (-> & pre & post & -> & Hfound & Hpre).
           split; [reflexivity |]. exists (c :: pre), post.
           repeat split; [exact Hfound |]. constructor; [eauto | exact Hpre].
        -- destruct IH as (-> & Hrest). split; [reflexivity |].
           constructor; [eauto | exact Hrest].
        -- destruct IH as (-> & -> & pre & c' & post & -> & Hnone & Hpre).
           repeat split. exists (c :: pre), c', post.
           repeat split; [exact Hnone |]. constructor; [eauto | exact Hpre].
    + simpl. repeat split. exists [], c, rest.
      repeat split; [exact Hc | constructor].
Qed.

(** X15.  Whatever the store holds, a credential returned for a flow
    result is either a stored credential with the user name of the flow
    result, and then nothing is created, or the one credential created
    from the user name alone, and then no stored credential has that
    user name. *)
Theorem get_or_create_result
    (create : gmap string string -> Credentials)
    (credentials : list Credentials) (flow_result : gmap string string)
    (username : string) (credential : Credentials) :
  flow_result !! "username" = Some username ->
  outcome (async_get_or_create_credentials create credentials flow_result)
  = Ret credential ->
  (credential ∈ credentials /\
   cred_data credential !! "username" = Some username /\
   trace (async_get_or_create_credentials create credentials flow_result)
   = []) \/
  (credential = create {["username" := username]} /\
   trace (async_get_or_create_credentials create credentials flow_result)
   = [EvCreateCredentials {["username" := username]}] /\
   forall c, c ∈ credentials -> cred_data c !! "username" <> Some username).
Proof.
  intros Hname. unfold async_get_or_create_credentials, dict_get.
  rewrite Hname. unfold mbind, mret, M_bind, M_ret, emit, outcome, trace.
  simpl.
  pose proof (find_credentials_result username credentials) as Hfind.
  destruct (find_credentials username credentials) as [[[found |] | e] t];
    simpl; intros Hret; simplify_eq.
  - destruct Hfind as (-> & pre & post & -> & Hfound & _). left.
    repeat split; [| exact Hfound]. apply elem_of_app. right. left.
  - destruct Hfind as (-> & Hall). right. repeat split.
    intros c Hin Hc. rewrite Forall_forall in Hall.
    destruct (Hall c Hin) as (stored & Hstored & Hne). congruence.
Qed.

(** X15, on the example directory. *)
Lemma get_or_create_result_example :
  (credentials_of "c2" "alice" ∈ stored /\
   cred_data (credentials_of "c2" "alice") !! "username" = Some "alice" /\
   trace (async_get_or_create_credentials create stored
            (login "alice" "wonderland")) = []) \/
  (credentials_of "c2" "alice" = create {["username" := "alice"]} /\
   trace (async_get_or_create_credentials create stored
            (login "alice" "wonderland"))
   = [EvCreateCredentials {["username" := "alice"]}] /\
   forall c, c ∈ stored -> cred_data c !! "username" <> Some "alice").
Proof.
  apply (get_or_create_result create stored (login "alice" "wonderland")
           "alice" (credentials_of "c2" "alice")); reflexivity.
Defined.

(** X16.  A flow result without [username] raises [KeyError] and
    creates nothing; so does a stored credential without user name that
    comes before any credential with the user name looked for. *)
Theorem get_or_create_missing_username
    (create : gmap string string -> Credentials)
    (credentials : list Credentials) (flow_result : gmap string string) :
  (flow_result !! "username" = None ->
   async_get_or_create_credentials create credentials flow_result
   = (Raise (KeyError "username"), [])) /\
  (forall username pre c post,
     flow_result !! "username" = Some username ->
     credentials = pre ++ c :: post ->
     Forall (fun c' => exists stored,
               cred_data c' !! "username" = Some stored /\
               stored <> username) pre ->
     cred_data c !! "username" = None ->
     async_get_or_create_credentials create credentials flow_result
     = (Raise (KeyError "username"), [])).
Proof.
  split.
  - intros Hnone. unfold async_get_or_create_credentials, dict_get.
    rewrite Hnone. reflexivity.
  - intros username pre c post Hname -> Hpre Hc.
    unfold async_get_or_create_credentials, dict_get. rewrite Hname.
    unfold mbind, mret, M_bind, M_ret. simpl.
    assert (Hfind : find_credentials username (pre ++ c :: post)
                    = (Raise (KeyError "username"), [])).
    { induction Hpre as [| c' pre (stored & Hstored & Hne) _ IH]; simpl.
      - unfold dict_get. rewrite Hc. reflexivity.
      - unfold dict_get. rewrite Hstored.
        unfold mbind, mret, M_bind, M_ret. simpl.
        rewrite bool_decide_eq_false_2 by exact Hne. rewrite IH.
        reflexivity. }
    rewrite Hfind. reflexivity.
Qed.

(** X16, on the example directory. *)
Lemma get_or_create_missing_username_example :
  async_get_or_create_credentials create stored ∅
  = (Raise (KeyError "username"), []) /\
  async_get_or_create_credentials create
    ([credentials_of "c1" "bob"] ++ nameless :: [credentials_of "c2" "alice"])
    {["username" := "alice"]}
  = (Raise (KeyError "username"), []).
Proof.
  split.
  - apply (get_or_create_missing_username create stored ∅). reflexivity.
  - apply (proj2 (get_or_create_missing_username create
                    ([credentials_of "c1" "bob"]
                     ++ nameless :: [credentials_of "c2" "alice"])
                    {["username" := "alice"]})
             "alice" [credentials_of "c1" "bob"] nameless
             [credentials_of "c2" "alice"]).
    + reflexivity.
    + reflexivity.
    + constructor; [| constructor]. exists "bob".
      split; [reflexivity | discriminate].
    + reflexivity.
Defined.

(** X17.  When no stored credential has the user name, the first
    login creates one credential from the user name alone; once it is
    added to the store, a second login with the same user name returns
    that very credential and creates nothing, provided the created
    credential holds the data it was created from. *)
Theorem second_login_finds_created_credential
    (create : gmap string string -> Credentials)
    (credentials : list Credentials)
    (flow_result flow_result' : gmap string string) (username : string) :
  (forall data, cred_data (create data) = data) ->
  flow_result !! "username" = Some username ->
  flow_result' !! "username" = Some username ->
  Forall (fun c => exists stored,
            cred_data c !! "username" = Some stored /\
            stored <> username) credentials ->
  exists created,
    async_get_or_create_credentials create credentials flow_result
    = (Ret created, [EvCreateCredentials {["username" := username]}]) /\
    created = create {["username" := username]} /\
    async_get_or_create_credentials create (credentials ++ [created])
      flow_result'
    = (Ret created, []).
Proof.
  intros Hcreate Hname Hname' Hall.
  exists (create {["username" := username]}).
  assert (Hnone : find_credentials username credentials = (Ret None, [])).
  { induction Hall as [| c rest (stored & Hstored & Hne) _ IH]; simpl;
      [reflexivity |].
    unfold dict_get. rewrite Hstored.
    unfold mbind, mret, M_bind, M_ret. simpl.
    rewrite bool_decide_eq_false_2 by exact Hne. rewrite IH. reflexivity. }
  assert (Hsome : find_credentials username
                    (credentials ++ [create {["username" := username]}])
                  = (Ret (Some (create {["username" := username]})), [])).
  { induction Hall as [| c rest (stored & Hstored & Hne) _ IH]; simpl.
    - unfold dict_get. rewrite Hcreate, lookup_singleton_eq.
      unfold mbind, mret, M_bind, M_ret. simpl.
      rewrite bool_decide_eq_true_2 by reflexivity. reflexivity.
    - unfold dict_get. rewrite Hstored.
      unfold mbind, mret, M_bind, M_ret. simpl.
      rewrite bool_decide_eq_false_2 by exact Hne.
      rewrite IH; [reflexivity |].
      clear -Hnone Hstored Hne. simpl in Hnone. unfold dict_get in Hnone.
      rewrite Hstored in Hnone.
      unfold mbind, mret, M_bind, M_ret in Hnone. simpl in Hnone.
      rewrite bool_decide_eq_false_2 in Hnone by exact Hne.
      destruct (find_credentials username rest) as [[[?|]|?] t];
        simpl in Hnone; simplify_eq; reflexivity. }
  unfold async_get_or_create_credentials, dict_get.
  rewrite Hname, Hname'. unfold mbind, mret, M_bind, M_ret, emit. simpl.
  rewrite Hnone, Hsome. simpl. repeat split.
Qed.

(** X17, on the example directory. *)
Lemma second_login_finds_created_credential_example :
  exists created,
    async_get_or_create_credentials create [credentials_of "c1" "bob"]
      (login "alice" "wonderland")
    = (Ret created, [EvCreateCredentials {["username" := "alice"]}]) /\
    created = create {["username" := "alice"]} /\
    async_get_or_create_credentials create
      ([credentials_of "c1" "bob"] ++ [created]) {["username" := "alice"]}
    = (Ret created, []).
Proof.
  apply (second_login_finds_created_credential create
           [credentials_of "c1" "bob"] (login "alice" "wonderland")
           {["username" := "alice"]} "alice").
  - intros data. reflexivity.
  - reflexivity.
  - reflexivity.
  - constructor; [| constructor]. exists "bob".
    split; [reflexivity | discriminate].
Defined.

(** X18.  The user metadata of the credential obtained for a flow
    result has the user name of the flow result as its name and is
    active, whether the credential was found or created, provided a
    created credential holds the data it was created from. *)
Theorem user_meta_of_login
    (create : gmap string string -> Credentials)
    (credentials : list Credentials) (flow_result : gmap string string)
    (username : string) (credential : Credentials) :
  (forall data, cred_data (create data) = data) ->
  flow_result !! "username" = Some username ->
  outcome (async_get_or_create_credentials create credentials flow_result)
  = Ret credential ->
  async_user_meta_for_credentials credential
  = (Ret {| meta_name := username; meta_is_active := true |}, []).
Proof.
  intros Hcreate Hname. unfold async_get_or_create_credentials, dict_get.
  rewrite Hname. unfold mbind, mret, M_bind, M_ret, emit, outcome. simpl.
  pose proof (find_credentials_result username credentials) as Hfind.
  destruct (find_credentials username credentials) as [[[found |] | e] t];
    simpl; intros Hret; simplify_eq;
    unfold async_user_meta_for_credentials, dict_get.
  - destruct Hfind as (_ & pre & post & _ & Hfound & _). rewrite Hfound.
    reflexivity.
  - rewrite Hcreate, lookup_singleton_eq. reflexivity.
Qed.

(** X18, on the example directory. *)
Lemma user_meta_of_login_example :
  async_user_meta_for_credentials (credentials_of "c2" "alice")
  = (Ret {| meta_name := "alice"; meta_is_active := true |}, []).
Proof.
  apply (user_meta_of_login create stored (login "alice" "wonderland")
           "alice" (credentials_of "c2" "alice")).
  - intros data. reflexivity.
  - reflexivity.
  - reflexivity.
Defined.

(** ** More on the membership test *)

Lemma lower_ascii_idemp (c : ascii) :
  lower_ascii (lower_ascii c) = lower_ascii c.
Proof.
  destruct c as [[] [] [] [] [] [] [] []]; vm_compute; reflexivity.
Qed.

Lemma lower_idemp (s : string) : lower (lower s) = lower s.
Proof.
  induction s as [| c s IH]; [reflexivity |].
  change (String (lower_ascii (lower_ascii c)) (lower (lower s))
          = String (lower_ascii c) (lower s)).
  rewrite lower_ascii_idemp, IH. reflexivity.
Qed.

(** The test is a test on the lower-case forms of the two lists. *)
Lemma is_member_lower (allowed user_groups : list string) :
  is_member allowed user_groups = true <->
  exists name, name ∈ lower <$> allowed /\ name ∈ lower <$> user_groups.
Proof.
  rewrite is_member_true. split.
  - intros (group & g & Hgroup & Hg & Heq). exists (lower group). split.
    + apply list_elem_of_fmap. eauto.
    + rewrite Heq. apply list_elem_of_fmap. eauto.
  - intros (name & Ha & Hg).
    apply list_elem_of_fmap in Ha as (group & -> & Hgroup).
    apply list_elem_of_fmap in Hg as (g & Heq & Hg).
    exists group, g. auto.
Qed.

Lemma is_member_depends_on_lower_case_aux
    (allowed allowed' user_groups user_groups' : list string) :
  lower <$> allowed = lower <$> allowed' ->
  lower <$> user_groups = lower <$> user_groups' ->
  is_member allowed user_groups = is_member allowed' user_groups'.
Proof.
  intros Ha Hg. apply Bool.eq_true_iff_eq.
  rewrite !is_member_lower, Ha, Hg. reflexivity.
Qed.

(** X19.  The membership test sees only the lower-case forms: two
    allow-lists and two lists of groups with the same lower-case forms
    give the same answer, and the group check has the same outcome for
    them. *)
Theorem is_member_depends_on_lower_case
    (allowed allowed' user_groups user_groups' : list string) :
  lower <$> allowed = lower <$> allowed' ->
  lower <$> user_groups = lower <$> user_groups' ->
  is_member allowed user_groups = is_member allowed' user_groups' /\
  forall config config' conn conn' uid entry entry' rest rest',
    conf_allowed_group_dns config = allowed ->
    conf_allowed_group_dns config' = allowed' ->
    conn_entries conn = entry :: rest ->
    conn_entries conn' = entry' :: rest' ->
    entry_memberOf entry = Some user_groups ->
    entry_memberOf entry' = Some user_groups' ->
    outcome (check_group_membership config conn uid)
    = outcome (check_group_membership config' conn' uid).
Proof.
  intros Ha Hg.
  pose proof (is_member_depends_on_lower_case_aux _ _ _ _ Ha Hg) as Heq.
  split; [exact Heq |].
  intros config config' conn conn' uid entry entry' rest rest'
    Hallowed Hallowed' Hc Hc' Hm Hm'.
  unfold check_group_membership, entries_0, iterate.
  rewrite Hallowed, Hallowed', Hc, Hc'.
  destruct allowed as [| a l], allowed' as [| a' l'];
    try discriminate Ha; [reflexivity |].
  unfold outcome, log, emit, raise, mbind, mret, M_bind, M_ret. simpl.
  rewrite Hm, Hm'. simpl. rewrite Heq.
  destruct (is_member (a' :: l') user_groups'); reflexivity.
Qed.

(** X19, on the example directory. *)
Lemma is_member_depends_on_lower_case_example :
  is_member ["CN=Staff,DC=Example,DC=Com"] ["cn=staff,dc=example,dc=com"]
  = is_member ["cn=STAFF,dc=example,dc=com"] ["CN=STAFF,DC=EXAMPLE,DC=COM"].
Proof.
  apply (is_member_depends_on_lower_case
           ["CN=Staff,DC=Example,DC=Com"] ["cn=STAFF,dc=example,dc=com"]
           ["cn=staff,dc=example,dc=com"] ["CN=STAFF,DC=EXAMPLE,DC=COM"]);
    reflexivity.
Defined.

(** X20.  The membership test of an allow-list or of a list of groups
    put together from two parts is the disjunction of the tests of the
    parts, and the test does not change when either list is put in lower
    case. *)
Theorem is_member_algebra (allowed allowed' user_groups user_groups'
    : list string) :
  is_member (allowed ++ allowed') user_groups
  = is_member allowed user_groups || is_member allowed' user_groups /\
  is_member allowed (user_groups ++ user_groups')
  = is_member allowed user_groups || is_member allowed user_groups' /\
  is_member (lower <$> allowed) user_groups = is_member allowed user_groups /\
  is_member allowed (lower <$> user_groups) = is_member allowed user_groups.
Proof.
  split; [| split; [| split]].
  - apply Bool.eq_true_iff_eq.
    rewrite orb_true_iff, !is_member_lower, fmap_app. split.
    + intros (name & Ha & Hg). apply elem_of_app in Ha as [Ha | Ha]; eauto.
    + intros [(name & Ha & Hg) | (name & Ha & Hg)]; exists name;
        (split; [apply elem_of_app; auto | exact Hg]).
  - apply Bool.eq_true_iff_eq.
    rewrite orb_true_iff, !is_member_lower, fmap_app. split.
    + intros (name & Ha & Hg). apply elem_of_app in Hg as [Hg | Hg]; eauto.
    + intros [(name & Ha & Hg) | (name & Ha & Hg)]; exists name;
        (split; [exact Ha | apply elem_of_app; auto]).
  - apply is_member_depends_on_lower_case_aux; [| reflexivity].
    rewrite <- list_fmap_compose. apply list_fmap_ext. intros i s _.
    apply lower_idemp.
  - apply is_member_depends_on_lower_case_aux; [reflexivity |].
    rewrite <- list_fmap_compose. apply list_fmap_ext. intros i s _.
    apply lower_idemp.
Qed.
